(** * wgan.py: a shallow embedding of the WGAN controller

    The development follows [src/wgan.py]: the weight clipper
    ([ClipConstraint]), the Wasserstein loss, the batch sampler
    ([WGAN.get_data_batch]), the training loop ([WGAN.train]), the load
    operation ([WGAN.load]) and the two network builders.

    Python integers are [Z]; real-valued tensors hold rationals ([Q]),
    so rounding and NaN are outside the model; Python exceptions are an
    explicit [Raise] outcome; the process-wide numpy generator, the file
    system and the tensor engine are explicit state. *)

From Stdlib Require Import ZArith QArith Qminmax Lia Ascii.
From stdpp Require Import base list gmap strings pretty.

Local Open Scope Z_scope.

(** ** Python outcomes *)

(** Python's exceptions, and [OutsideModel] for the few behaviours of a
    library call that this development does not describe. *)
Inductive Exception :=
| ZeroDivisionError
| ValueError
| KeyError
| IndexError
| UnboundLocalError
| AssertionError
| AttributeError
| OutsideModel.

Inductive result (A : Type) :=
| Ok (a : A)
| Raise (e : Exception).
Arguments Ok {A} a.
Arguments Raise {A} e.

(** A Python computation over a mutable world [S]: an exception keeps
    the side effects made before it was raised. *)
Definition Py (S A : Type) : Type := S -> result A * S.

Definition ret {S A} (a : A) : Py S A := fun s => (Ok a, s).
Definition raise {S A} (e : Exception) : Py S A := fun s => (Raise e, s).
Definition bind {S A B} (m : Py S A) (k : A -> Py S B) : Py S B :=
  fun s => match m s with
           | (Ok a, s') => k a s'
           | (Raise e, s') => (Raise e, s')
           end.
Definition lift {S A} (r : result A) : Py S A := fun s => (r, s).
Definition modify {S} (f : S -> S) : Py S unit := fun s => (Ok tt, f s).

Declare Scope py_scope.
Delimit Scope py_scope with py.
Notation "'let*' x := m 'in' k" := (bind m (fun x => k))
  (at level 10, x pattern, m at level 100, k at level 200) : py_scope.
Notation "m >> k" := (bind m (fun _ => k))
  (at level 61, left associativity) : py_scope.

(** ** Python integer and list primitives *)

(** [a % b] and [a // b]: floor semantics, [ZeroDivisionError] on [b = 0]. *)
Definition py_mod (a b : Z) : result Z :=
  if b =? 0 then Raise ZeroDivisionError else Ok (a mod b).
Definition py_floordiv (a b : Z) : result Z :=
  if b =? 0 then Raise ZeroDivisionError else Ok (a / b).

(** [range(n)] *)
Definition py_range (n : Z) : list Z := Z.of_nat <$> seq 0 (Z.to_nat n).

(** Normalisation of one slice bound against a list of length [L]. *)
Definition py_clamp (L i : Z) : Z :=
  if i <? 0 then Z.max 0 (i + L) else Z.min i L.

(** [l[a:b]] *)
Definition py_slice {A} (l : list A) (a b : Z) : list A :=
  let L := Z.of_nat (length l) in
  let a' := py_clamp L a in
  let b' := py_clamp L b in
  take (Z.to_nat (b' - a')) (drop (Z.to_nat a') l).

(** ** numpy arrays and pandas frames *)

(** A two-dimensional array: its shape and its elements in row-major order. *)
Record ndarray (A : Type) := { shape : Z * Z; flat : list A }.
Arguments shape {A} _.
Arguments flat {A} _.

(** [np.reshape(x, (rows, -1))]: the free dimension is inferred from the
    size of [x]; a negative or zero [rows], or a size that [rows] does not
    divide, is a [ValueError]. *)
Definition np_reshape {A} (x : ndarray A) (rows : Z) : result (ndarray A) :=
  let size := (shape x).1 * (shape x).2 in
  if rows <=? 0 then Raise ValueError
  else if size mod rows =? 0 then Ok {| shape := (rows, size / rows); flat := flat x |}
  else Raise ValueError.

(** A frame: rows tagged with their index label, and the number of columns. *)
Record DataFrame (A : Type) := { df_columns : nat; df_rows : list (Z * list A) }.
Arguments df_columns {A} _.
Arguments df_rows {A} _.

Definition df_index {A} (df : DataFrame A) : list Z := fst <$> df_rows df.
Definition df_len {A} (df : DataFrame A) : Z := Z.of_nat (length (df_rows df)).

(** [df.values] *)
Definition df_values {A} (df : DataFrame A) : ndarray A :=
  {| shape := (df_len df, Z.of_nat (df_columns df));
     flat := concat (snd <$> df_rows df) |}.

(** [df.loc[labels]] for a list of labels: for each requested label, in
    order, every row carrying it; a label that is absent is a [KeyError]. *)
Fixpoint loc_rows {A} (rows : list (Z * list A)) (labels : list Z)
  : result (list (Z * list A)) :=
  match labels with
  | [] => Ok []
  | l :: ls =>
      match filter (fun r => r.1 = l) rows with
      | [] => Raise KeyError
      | hit => match loc_rows rows ls with
               | Ok rest => Ok (hit ++ rest)
               | Raise e => Raise e
               end
      end
  end.

Definition df_loc {A} (df : DataFrame A) (labels : list Z) : result (DataFrame A) :=
  match loc_rows (df_rows df) labels with
  | Ok rows => Ok {| df_columns := df_columns df; df_rows := rows |}
  | Raise e => Raise e
  end.

(** Every row has as many entries as the frame has columns. *)
Definition rectangular {A} (df : DataFrame A) : Prop :=
  Forall (fun r => length r.2 = df_columns df) (df_rows df).

(** ** The process-wide numpy generator

    [np.random.seed] and [np.random.choice] act on one global Mersenne
    Twister. Its bit-level algorithm is not part of this repository: the
    interface below fixes what the sampler relies on, namely that seeding
    replaces the whole state and that [permutation n] is a permutation of
    [0 .. n-1] computed from the state. *)
Class NumpyRandom := {
  rng_state : Type;
  mt_seed : Z -> rng_state;
  mt_permutation : rng_state -> nat -> list nat * rng_state;
  mt_permutation_perm : forall g n, (mt_permutation g n).1 ≡ₚ seq 0 n
}.

Section Sampler.
Context {RNG : NumpyRandom} {A : Type}.
Local Open Scope py_scope.

(** [np.random.seed(s)]: seeds outside [0, 2**32 - 1] are rejected. *)
Definition np_random_seed (s : Z) : Py rng_state unit :=
  fun g => if (0 <=? s) && (s <? 2 ^ 32) then (Ok tt, mt_seed s)
           else (Raise ValueError, g).

(** The list [a[permutation(len(a))[:len(a)]]] drawn from state [g]. *)
Definition shuffled (a : list Z) (g : rng_state) : list Z :=
  omap (fun i => a !! i) (take (length a) (mt_permutation g (length a)).1).

(** [np.random.choice(a, replace=False, size=len(a))] *)
Definition np_random_choice (a : list Z) : Py rng_state (list Z) :=
  fun g => (Ok (shuffled a g), (mt_permutation g (length a)).2).

(** The expression [train_ix[start_i: stop_i]] of [get_data_batch], with
    everything that is evaluated before it. *)
Definition batch_labels (train : DataFrame A) (batch_size seed : Z)
  : Py rng_state (list Z) :=
  let* start_i := lift (py_mod (batch_size * seed) (df_len train)) in
  let stop_i := start_i + batch_size in
  let* shuffle_seed := lift (py_floordiv (batch_size * seed) (df_len train)) in
  np_random_seed shuffle_seed >>
  let* train_ix := np_random_choice (df_index train) in
  let train_ix := train_ix ++ train_ix in
  ret (py_slice train_ix start_i stop_i).

(** [WGAN.get_data_batch(train, batch_size, seed)] *)
Definition get_data_batch (train : DataFrame A) (batch_size seed : Z)
  : Py rng_state (ndarray A) :=
  let* ix := batch_labels train batch_size seed in
  let* x := lift (df_loc train ix) in
  lift (np_reshape (df_values x) batch_size).

End Sampler.

(** ** The weight clipper *)

(** [backend.clip(x, min_value, max_value)] on one element: an upper bound
    below the lower bound is raised to it, then the value is cut at the
    upper and at the lower bound. *)
Definition backend_clip (x min_value max_value : Q) : Q :=
  let max_value := if Qle_bool min_value max_value then max_value else min_value in
  Qmax (Qmin x max_value) min_value.

Record ClipConstraint := { clip_value : Q }.

(** [ClipConstraint.__call__(weights)] *)
Definition ClipConstraint_call (self : ClipConstraint) (weights : list Q) : list Q :=
  (fun w => backend_clip w (- clip_value self) (clip_value self)) <$> weights.

(** [ClipConstraint.get_config()] *)
Definition get_config (self : ClipConstraint) : list (string * Q) :=
  [("clip_value"%string, clip_value self)].

(** ** Layers and the two network builders *)

Inductive activation := relu.

(** [Dense(units, activation=..., kernel_constraint=...)] and
    [Dropout(rate)] as the builders write them. No builder passes a
    [bias_constraint], so the layer carries none. *)
Inductive layer :=
| Dense (units : Z) (act : option activation) (kernel_constraint : option ClipConstraint)
| Dropout (rate : Q).

(** A functional [Model(inputs=input, outputs=x)]. *)
Record Model := {
  model_batch_size : Z;
  model_input_shape : Z;
  model_layers : list layer
}.

(** What the framework's constructors accept. The builders call [Input]
    and [Dense] with the caller's numbers; whether a number is rejected is
    decided there, not in this repository. *)
Class Keras := {
  Input_accepts : Z -> option Z -> bool;
  Dense_accepts : Z -> bool
}.

Section Builders.
Context {K : Keras}.

(** [Input(shape=(n,), batch_size=b)]: the width of the symbolic tensor. *)
Definition Input (shape : Z) (batch_size : option Z) : result Z :=
  if Input_accepts shape batch_size then Ok shape else Raise ValueError.

(** [layer(x)] on a symbolic tensor of the given width. *)
Definition call_layer (l : layer) (width : Z) : result Z :=
  match l with
  | Dense units _ _ => if Dense_accepts units then Ok units else Raise ValueError
  | Dropout _ => Ok width
  end.

(** The chain [x = l1(input); x = l2(x); ...]. *)
Fixpoint stack (ls : list layer) (width : Z) : result Z :=
  match ls with
  | [] => Ok width
  | l :: ls' => match call_layer l width with
                | Ok w => stack ls' w
                | Raise e => Raise e
                end
  end.

Definition functional_model (batch_size input_shape : Z) (ls : list layer)
  : result Model :=
  match Input input_shape (Some batch_size) with
  | Raise e => Raise e
  | Ok input =>
      match stack ls input with
      | Raise e => Raise e
      | Ok _ => Ok {| model_batch_size := batch_size;
                      model_input_shape := input_shape;
                      model_layers := ls |}
      end
  end.

(** [Generator(batch_size).build_model(input_shape, dim, data_dim)] *)
Definition Generator_layers (dim data_dim : Z) : list layer :=
  [ Dense dim (Some relu) None;
    Dense (dim * 2) (Some relu) None;
    Dense (dim * 4) (Some relu) None;
    Dense data_dim None None ].

Definition Generator_build_model (batch_size input_shape dim data_dim : Z)
  : result Model :=
  functional_model batch_size input_shape (Generator_layers dim data_dim).

(** [Critic(batch_size).build_model(input_shape, dim)] *)
Definition Critic_layers (dim : Z) : list layer :=
  let const := {| clip_value := 1 # 100 |} in
  [ Dense (dim * 4) (Some relu) (Some const);
    Dropout (1 # 10);
    Dense (dim * 2) (Some relu) (Some const);
    Dropout (1 # 10);
    Dense dim (Some relu) (Some const);
    Dense 1 None None ].

Definition Critic_build_model (batch_size input_shape dim : Z) : result Model :=
  functional_model batch_size input_shape (Critic_layers dim).

(** The objects [self.generator] is bound to during the life of a
    controller: the functional model that [build_model] returns, and a
    [Generator] instance as [Generator.__init__] leaves it. *)
Inductive pyobj :=
| PyNone
| PyModel (m : Model)
| PyGenerator (batch_size : Z).

(** [Generator(batch_size)]: [__init__] stores the batch size and does
    nothing else. It does not call [super().__init__()], so the initialiser
    of [tf.keras.Model] never runs on the object: none of the attributes
    that the methods of [tf.keras.Model] rely on exists. *)
Definition Generator_init (batch_size : Z) : pyobj := PyGenerator batch_size.

(** The controller object. *)
Record WGAN := {
  n_critic : Z;
  batch_size : Z;
  lr : Q;
  noise_dim : Z;
  data_dim : Z;
  layers_dim : Z;
  generator : pyobj;
  critic : Model
}.

(** [WGAN.define_gan()], as far as dimensions travel: the two builders and
    the [Input] of the combined model, in the order of the source. The
    remaining framework calls (the optimizers, [compile], applying the two
    models to [z], [Model]) receive no dimension from the caller and are
    taken to succeed. *)
Definition define_gan (batch_size noise_dim data_dim layers_dim : Z)
  : result (Model * Model) :=
  match Generator_build_model batch_size noise_dim layers_dim data_dim with
  | Raise e => Raise e
  | Ok generator =>
      match Critic_build_model batch_size data_dim layers_dim with
      | Raise e => Raise e
      | Ok critic =>
          match Input noise_dim None with
          | Raise e => Raise e
          | Ok z => Ok (generator, critic)
          end
      end
  end.

(** [WGAN.__init__(model_parameters, n_critic)] *)
Definition WGAN_init (model_parameters : Z * Q * Z * Z * Z) (n_critic : Z)
  : result WGAN :=
  let '(batch_size, lr, noise_dim, data_dim, layers_dim) := model_parameters in
  match define_gan batch_size noise_dim data_dim layers_dim with
  | Raise e => Raise e
  | Ok (generator, critic) =>
      Ok {| n_critic := n_critic; batch_size := batch_size; lr := lr;
            noise_dim := noise_dim; data_dim := data_dim;
            layers_dim := layers_dim;
            generator := PyModel generator; critic := critic |}
  end.

End Builders.

(** ** Trainable variables and the optimizer's constraint hook *)

Inductive var_kind := kernel | bias.

(** A trainable variable: which layer owns it, what it is, its constraint
    and its current elements. *)
Record variable := {
  var_layer : nat;
  var_kind_of : var_kind;
  var_constraint : option ClipConstraint;
  var_value : list Q
}.

(** The variables a layer creates when it is built on an input of the given
    width: a [Dense] layer owns a kernel, constrained by its
    [kernel_constraint], and a bias, which no builder constrains; [Dropout]
    owns none. Every element starts at [init]. *)
Definition layer_variables (i : nat) (l : layer) (width : Z) (init : Q)
  : list variable :=
  match l with
  | Dense units _ kc =>
      [ {| var_layer := i; var_kind_of := kernel; var_constraint := kc;
           var_value := replicate (Z.to_nat (width * units)) init |};
        {| var_layer := i; var_kind_of := bias; var_constraint := None;
           var_value := replicate (Z.to_nat units) init |} ]
  | Dropout _ => []
  end.

Definition layer_width (l : layer) (width : Z) : Z :=
  match l with
  | Dense units _ _ => units
  | Dropout _ => width
  end.

Fixpoint layers_variables (i : nat) (ls : list layer) (width : Z) (init : Q)
  : list variable :=
  match ls with
  | [] => []
  | l :: ls' => layer_variables i l width init
                  ++ layers_variables (S i) ls' (layer_width l width) init
  end.

Definition trainable_weights (m : Model) (init : Q) : list variable :=
  layers_variables 0 (model_layers m) (model_input_shape m) init.

(** One optimizer step on one variable: the optimizer writes a new value
    ([raw], any function of the old one) and then, when the variable has a
    constraint, assigns the constrained value. *)
Definition update_variable (raw : variable -> list Q) (v : variable) : variable :=
  let updated := raw v in
  {| var_layer := var_layer v; var_kind_of := var_kind_of v;
     var_constraint := var_constraint v;
     var_value := match var_constraint v with
                  | Some c => ClipConstraint_call c updated
                  | None => updated
                  end |}.

Definition apply_gradients (raw : variable -> list Q) (vs : list variable)
  : list variable :=
  update_variable raw <$> vs.

(** The owner, kind and constraint of a variable: what an update keeps. *)
Definition var_meta (v : variable) : nat * var_kind * option ClipConstraint :=
  (var_layer v, var_kind_of v, var_constraint v).

(** [-c <= w <= c] for every element. *)
Definition within (c : Q) (ws : list Q) : Prop :=
  Forall (fun w => (- c <= w)%Q /\ (w <= c)%Q) ws.

(** ** The Wasserstein loss *)

(** Elementwise product of two rank-one tensors: equal lengths multiply
    position by position, a length-one tensor is broadcast, anything else
    is a shape error. *)
Definition tf_multiply (a b : list Q) : result (list Q) :=
  if decide (length a = length b) then Ok (zip_with Qmult a b)
  else match a, b with
       | [x], _ => Ok (Qmult x <$> b)
       | _, [y] => Ok ((fun x => x * y)%Q <$> a)
       | _, _ => Raise ValueError
       end.

Definition Qsum (x : list Q) : Q := foldr Qplus 0%Q x.

(** [K.mean(x)]: [None] stands for the not-a-number that the mean of an
    empty tensor is. *)
Definition K_mean (x : list Q) : option Q :=
  match x with
  | [] => None
  | _ => Some (Qsum x / inject_Z (Z.of_nat (length x)))%Q
  end.

(** [WGAN.wasserstein_loss(y_true, y_pred)] *)
Definition wasserstein_loss (y_true y_pred : list Q) : result (option Q) :=
  match tf_multiply y_true y_pred with
  | Ok prod => Ok (K_mean prod)
  | Raise e => Raise e
  end.

(** The loss in the words of the specification: the sum of the products
    [y_true[i] * y_pred[i]] divided by the number of entries. *)
Fixpoint spec_sum_of_products (y_true y_pred : list Q) : Q :=
  match y_true, y_pred with
  | t :: ts, p :: ps => (t * p + spec_sum_of_products ts ps)%Q
  | _, _ => 0%Q
  end.

Definition spec_loss (y_true y_pred : list Q) : option Q :=
  match y_pred with
  | [] => None
  | _ => Some (spec_sum_of_products y_true y_pred
               / inject_Z (Z.of_nat (length y_pred)))%Q
  end.

(** Two loss values agree: both not-a-number, or equal rationals. *)
Definition loss_eq (a b : option Q) : Prop :=
  match a, b with
  | None, None => True
  | Some x, Some y => (x == y)%Q
  | _, _ => False
  end.

Definition result_loss_eq (a b : result (option Q)) : Prop :=
  match a, b with
  | Ok x, Ok y => loss_eq x y
  | Raise e, Raise e' => e = e'
  | _, _ => False
  end.

(** ** Format strings *)

Local Open Scope string_scope.

Definition prepend (s : string) (r : result string) : result string :=
  match r with
  | Ok t => Ok (s ++ t)
  | Raise e => Raise e
  end.

(** [template.format(a, b, ...)] for templates whose replacement fields are all
    the automatic field [{}]: [{{] and [}}] are escapes, a lone brace is a
    [ValueError], a field when the arguments are used up is an
    [IndexError]. A field with a name, an index, a conversion or a format
    specification is [OutsideModel]. *)
Fixpoint py_format (template : string) (args : list string) : result string :=
  match template with
  | EmptyString => Ok EmptyString
  | String c rest =>
      if Ascii.eqb c "{"%char then
        match rest with
        | EmptyString => Raise ValueError
        | String d rest' =>
            if Ascii.eqb d "{"%char then prepend "{" (py_format rest' args)
            else if Ascii.eqb d "}"%char then
              match args with
              | [] => Raise IndexError
              | a :: args' => prepend a (py_format rest' args')
              end
            else Raise OutsideModel
        end
      else if Ascii.eqb c "}"%char then
        match rest with
        | EmptyString => Raise ValueError
        | String d rest' =>
            if Ascii.eqb d "}"%char then prepend "}" (py_format rest' args)
            else Raise ValueError
        end
      else prepend (String c EmptyString) (py_format rest args)
  end.

(** [str(n)] for an integer. *)
Definition py_str (n : Z) : string := pretty n.

(** The expression
    [('./cache/' + cache_prefix + '_{}_model_weights_step_{}.h5').format(role, epoch)]
    of [train]. *)
Definition checkpoint_name (cache_prefix role : string) (epoch : Z) : result string :=
  let model_checkpoint_base_name :=
    "./cache/" ++ cache_prefix ++ "_{}_model_weights_step_{}.h5" in
  py_format model_checkpoint_base_name [role; py_str epoch].

(** The file name the specification prescribes. *)
Definition spec_checkpoint_name (cache_prefix role : string) (epoch : Z) : string :=
  "./cache/" ++ cache_prefix ++ "_" ++ role ++ "_model_weights_step_"
    ++ py_str epoch ++ ".h5".

(** No brace occurs in the string. *)
Fixpoint brace_free (s : string) : bool :=
  match s with
  | EmptyString => true
  | String c rest => negb (Ascii.eqb c "{"%char) && negb (Ascii.eqb c "}"%char) && brace_free rest
  end.

Local Close Scope string_scope.

(** ** The tensor engine and the world the controller runs in *)

(** What a critic step is fed: a real batch from the sampler or a batch the
    generator produced. *)
Inductive batch (T : Type) :=
| RealBatch (x : ndarray Q)
| FakeBatch (t : T).
Arguments RealBatch {T} x.
Arguments FakeBatch {T} t.

(** The tensor engine is an external collaborator. Its state ([engine])
    holds the weights of both networks, the optimizers' slots and the
    engine's own random generator; its operations are state transformers
    that are taken to succeed. *)
Class TensorEngine := {
  engine : Type;
  tensor : Type;
  weights : Type;
  tf_random_normal : Z * Z -> engine -> tensor * engine;
  generator_call : tensor -> engine -> tensor * engine;
  critic_train_on_batch : batch tensor -> ndarray Q -> engine -> (Q * Q) * engine;
  model_train_on_batch : tensor -> ndarray Q -> engine -> Q * engine;
  generator_weights : engine -> weights;
  critic_weights : engine -> weights
}.

Inductive file (W : Type) :=
| Directory
| WeightsFile (w : W).
Arguments Directory {W}.
Arguments WeightsFile {W} w.

(** The calls and side effects of a run, latest first. *)
Inductive event (T : Type) :=
| SamplerCalled (batch_size seed : Z)
| CriticTrained (x : batch T) (y : ndarray Q)
| GeneratorTrained (y : ndarray Q)
| Printed (epoch : Z) (d_loss : Q * Q) (g_loss : Q)
| Mkdir (path : string)
| Saved (role path : string).
Arguments SamplerCalled {T} batch_size seed.
Arguments CriticTrained {T} x y.
Arguments GeneratorTrained {T} y.
Arguments Printed {T} epoch d_loss g_loss.
Arguments Mkdir {T} path.
Arguments Saved {T} role path.

(** [np.ones((n, 1))] and unary minus on an array. *)
Definition np_ones (n : Z) : result (ndarray Q) :=
  if n <? 0 then Raise ValueError
  else Ok {| shape := (n, 1); flat := replicate (Z.to_nat n) 1%Q |}.

Definition np_neg (x : ndarray Q) : ndarray Q :=
  {| shape := shape x; flat := Qopp <$> flat x |}.

Section Controller.
Context {RNG : NumpyRandom} {TF : TensorEngine}.
Local Open Scope py_scope.

Record World := {
  np_rng : rng_state;
  tf : engine;
  fs : gmap string (file weights);
  log : list (event tensor)
}.

Definition emit (e : event tensor) : Py World unit :=
  modify (fun w => {| np_rng := np_rng w; tf := tf w; fs := fs w; log := e :: log w |}).

(** Run a computation on numpy's generator inside the world. *)
Definition with_rng {X} (m : Py rng_state X) : Py World X :=
  fun w => let '(r, g) := m (np_rng w) in
           (r, {| np_rng := g; tf := tf w; fs := fs w; log := log w |}).

(** Run an engine operation inside the world. *)
Definition with_tf {X} (op : engine -> X * engine) : Py World X :=
  fun w => let '(x, e) := op (tf w) in
           (Ok x, {| np_rng := np_rng w; tf := e; fs := fs w; log := log w |}).

(** [path.exists(p)], [os.path.isdir(p)], [os.mkdir(p)] *)
Definition path_exists (p : string) : Py World bool :=
  fun w => (Ok (bool_decide (is_Some (fs w !! p))), w).

Definition os_path_isdir (p : string) : Py World bool :=
  fun w => (Ok (match fs w !! p with Some Directory => true | _ => false end), w).

Definition os_mkdir (p : string) : Py World unit :=
  modify (fun w => {| np_rng := np_rng w; tf := tf w;
                      fs := <[p := Directory]> (fs w); log := log w |})
  >> emit (Mkdir p).

(** [model.save_weights(p)]: the file at [p] now holds the model's weights.
    Writing, like [os.mkdir], is taken to succeed. *)
Definition save_weights (role : string) (read : engine -> weights) (p : string)
  : Py World unit :=
  modify (fun w => {| np_rng := np_rng w; tf := tf w;
                      fs := <[p := WeightsFile (read (tf w))]> (fs w);
                      log := log w |})
  >> emit (Saved role p).

(** A [for] loop whose body may assign a local variable: [local] is the
    variable's binding before the loop, the result its binding after. *)
Fixpoint for_local {X L} (xs : list X) (body : X -> L -> Py World L) (local : L)
  : Py World L :=
  match xs with
  | [] => ret local
  | x :: xs' => let* local' := body x local in for_local xs' body local'
  end.

(** The body of [for _ in range(self.n_critic)]. The sampler is called with
    two arguments, so its [seed] is the default [0]. *)
Definition critic_iteration (self : WGAN) (data : DataFrame Q)
    (valid fake : ndarray Q) : Py World (Q * Q) :=
  emit (SamplerCalled (batch_size self) 0) >>
  let* batch_data := with_rng (get_data_batch data (batch_size self) 0) in
  let* noise := with_tf (tf_random_normal (batch_size self, noise_dim self)) in
  let* gen_data := with_tf (generator_call noise) in
  emit (CriticTrained (RealBatch batch_data) valid) >>
  let* d_loss_real := with_tf (critic_train_on_batch (RealBatch batch_data) valid) in
  emit (CriticTrained (FakeBatch gen_data) fake) >>
  let* d_loss_fake := with_tf (critic_train_on_batch (FakeBatch gen_data) fake) in
  ret ((1 # 2) * (d_loss_real.1 + d_loss_fake.1),
       (1 # 2) * (d_loss_real.2 + d_loss_fake.2))%Q.

(** The checkpoint block under [if epoch % sample_interval == 0]. *)
Definition checkpoint (cache_prefix : string) (epoch : Z) : Py World unit :=
  let* present := path_exists "./cache" in
  (if present then ret tt else os_mkdir "./cache") >>
  let* generator_file := lift (checkpoint_name cache_prefix "generator" epoch) in
  save_weights "generator" generator_weights generator_file >>
  let* critic_file := lift (checkpoint_name cache_prefix "critic" epoch) in
  save_weights "critic" critic_weights critic_file.

(** The body of [for epoch in range(epochs)]. [d_loss] is the binding of
    the local variable of that name: [None] while it is unassigned. *)
Definition epoch_body (self : WGAN) (data : DataFrame Q)
    (cache_prefix : string) (sample_interval : Z) (valid fake : ndarray Q)
    (epoch : Z) (d_loss : option (Q * Q)) : Py World (option (Q * Q)) :=
  let* d_loss :=
    for_local (py_range (n_critic self))
      (fun _ _ => let* d := critic_iteration self data valid fake in ret (Some d))
      d_loss in
  let* noise := with_tf (tf_random_normal (batch_size self, noise_dim self)) in
  emit (GeneratorTrained valid) >>
  let* g_loss := with_tf (model_train_on_batch noise valid) in
  let* d := match d_loss with
            | Some d => ret d
            | None => raise UnboundLocalError
            end in
  emit (Printed epoch d g_loss) >>
  let* r := lift (py_mod epoch sample_interval) in
  (if r =? 0 then checkpoint cache_prefix epoch else ret tt) >>
  ret d_loss.

(** [WGAN.train(data, train_arguments)] *)
Definition train (self : WGAN) (data : DataFrame Q)
    (train_arguments : string * Z * Z) : Py World unit :=
  let '(cache_prefix, epochs, sample_interval) := train_arguments in
  let* ones := lift (np_ones (batch_size self)) in
  let valid := np_neg ones in
  let* fake := lift (np_ones (batch_size self)) in
  for_local (py_range epochs)
    (epoch_body self data cache_prefix sample_interval valid fake) None
  >> ret tt.

(** [model.load_weights(p)], a method of [tf.keras.Model]. It begins by
    reading attributes that [tf.keras.Model.__init__] sets, so on a
    [Generator], whose [__init__] never ran that initialiser, it raises
    [AttributeError] before it looks at the path; [None] has no such method
    at all. What the call does on an initialised model depends on the
    checkpoint and is not described here. *)
Definition load_weights (self : pyobj) (p : string) : result pyobj :=
  match self with
  | PyGenerator _ => Raise AttributeError
  | PyNone => Raise AttributeError
  | PyModel _ => Raise OutsideModel
  end.

Definition set_generator (self : WGAN) (g : pyobj) : WGAN :=
  {| n_critic := n_critic self; batch_size := batch_size self; lr := lr self;
     noise_dim := noise_dim self; data_dim := data_dim self;
     layers_dim := layers_dim self; generator := g; critic := critic self |}.

(** [WGAN.load(path)]. The method assigns to [self.generator] before it
    can fail, so the outcome comes with the controller as the call leaves
    it, next to the world. *)
Definition load (self : WGAN) (p : string) (w : World)
  : result pyobj * (WGAN * World) :=
  match os_path_isdir p w with
  | (Ok true, w) =>
      let self := set_generator self (Generator_init (batch_size self)) in
      match load_weights (generator self) p with
      | Ok returned =>
          let self := set_generator self returned in
          (Ok (generator self), (self, w))
      | Raise e => (Raise e, (self, w))
      end
  | (Ok false, w) => (Raise AssertionError, (self, w))
  | (Raise e, w) => (Raise e, (self, w))
  end.

(** [isinstance(o, Generator)] *)
Definition is_Generator (o : pyobj) : bool :=
  match o with
  | PyGenerator _ => true
  | _ => false
  end.

End Controller.

(** ** Vocabulary for statements about a run *)

Section RunVocabulary.
Context {RNG : NumpyRandom} {TF : TensorEngine}.

(** [m] only appends to the log; what it appends satisfies [P], what it
    returns satisfies [Q], and with [keeps_fs] set it leaves the file
    system as it was. *)
Definition emits {X} (keeps_fs : bool) (P : event tensor -> Prop) (Q : X -> Prop)
    (m : Py World X) : Prop :=
  forall w, (keeps_fs = true -> fs (m w).2 = fs w)
            /\ (exists new, log (m w).2 = new ++ log w /\ Forall P new)
            /\ (forall a, (m w).1 = Ok a -> Q a).

Definition is_checkpoint_event (ev : event tensor) : bool :=
  match ev with
  | Mkdir _ | Saved _ _ => true
  | _ => false
  end.

(** The file system events of a log, latest first as the log has them. *)
Fixpoint checkpoint_events (l : list (event tensor)) : list (event tensor) :=
  match l with
  | [] => []
  | ev :: l' => if is_checkpoint_event ev then ev :: checkpoint_events l'
                else checkpoint_events l'
  end.

(** What the events of the critic loop may be: no file system event, the
    sampler called as [get_data_batch data (batch_size self)] with its
    default seed, and real batches that are the sampler's outcome there. *)
Definition seed_zero (self : WGAN) (data : DataFrame Q) (ev : event tensor) : Prop :=
  match ev with
  | SamplerCalled b s => b = batch_size self /\ s = 0
  | CriticTrained (RealBatch x) _ =>
      forall g, (get_data_batch data (batch_size self) 0 g).1 = Ok x
  | Mkdir _ | Saved _ _ => False
  | _ => True
  end.

(** The events of a whole run: those of the critic loop and the file
    system events of the checkpoint block. *)
Definition run_event (self : WGAN) (data : DataFrame Q) (ev : event tensor) : Prop :=
  seed_zero self data ev \/ is_checkpoint_event ev = true.

(** The file system events the specification prescribes for the given
    epochs, in the order they happen: at every epoch that the interval
    divides, the directory is created if it is not [present] yet, then the
    generator's and the critic's snapshot are written under their
    prescribed names. *)
Fixpoint expected_checkpoints (cache_prefix : string) (sample_interval : Z)
    (present : bool) (epochs : list Z) : list (event tensor) :=
  match epochs with
  | [] => []
  | epoch :: rest =>
      if epoch mod sample_interval =? 0 then
        (if present then [] else [Mkdir "./cache"])
        ++ [ Saved "generator" (spec_checkpoint_name cache_prefix "generator" epoch);
             Saved "critic" (spec_checkpoint_name cache_prefix "critic" epoch) ]
        ++ expected_checkpoints cache_prefix sample_interval true rest
      else expected_checkpoints cache_prefix sample_interval present rest
  end.

End RunVocabulary.

(** ** Vocabulary for the schedule, the file system and the names *)

(** What an event is about. *)
Inductive event_kind :=
| SamplerCall
| CriticStep
| GeneratorStep
| ProgressLine
| FileSystem.

#[export] Instance event_kind_eq_dec : EqDecision event_kind.
Proof. solve_decision. Defined.

Definition kind_of {T} (ev : event T) : event_kind :=
  match ev with
  | SamplerCalled _ _ => SamplerCall
  | CriticTrained _ _ => CriticStep
  | GeneratorTrained _ => GeneratorStep
  | Printed _ _ _ => ProgressLine
  | Mkdir _ | Saved _ _ => FileSystem
  end.

(** How many events of a log are of the given kind. *)
Fixpoint count_kind {T} (k : event_kind) (l : list (event T)) : nat :=
  match l with
  | [] => 0
  | ev :: l' => (if decide (kind_of ev = k) then 1 else 0) + count_kind k l'
  end.

(** The events one epoch adds besides those of the file system, for a
    critic loop of [n] iterations. *)
Definition epoch_count (n : nat) (k : event_kind) : nat :=
  match k with
  | SamplerCall => n
  | CriticStep => 2 * n
  | GeneratorStep => 1
  | ProgressLine => 1
  | FileSystem => 0
  end.

(** The labels every training step of a run must carry: real batches
    against [-ones], generated batches against [ones], the generator
    against [-ones]. *)
Definition labelled {T} (ones : ndarray Q) (ev : event T) : Prop :=
  match ev with
  | CriticTrained (RealBatch _) y => y = np_neg ones
  | CriticTrained (FakeBatch _) y => y = ones
  | GeneratorTrained y => y = np_neg ones
  | _ => True
  end.

(** Every path of the first file system is a path of the second. *)
Definition fs_grows {V} (m m' : gmap string V) : Prop :=
  forall p, is_Some (m !! p) -> is_Some (m' !! p).

(** A computation that only adds paths to the file system. *)
Definition grows {RNG : NumpyRandom} {TF : TensorEngine} {X} (m : Py World X) : Prop :=
  forall w, fs_grows (fs w) (fs (m w).2).

(** The string with every brace doubled, which is how a format template
    spells a literal brace. *)
Fixpoint escape_braces (s : string) : string :=
  match s with
  | EmptyString => EmptyString
  | String c rest =>
      if Ascii.eqb c "{"%char || Ascii.eqb c "}"%char
      then String c (String c (escape_braces rest))
      else String c (escape_braces rest)
  end.

(** The number of scalars in a list of variables. *)
Definition count_params (vs : list variable) : nat :=
  sum_list (length <$> (var_value <$> vs)).

(** ** Concrete collaborators, to run the model on examples *)

Module Demo.

(** A generator whose state is a counter: even states yield the identity
    permutation, odd states the reversed one. *)
Definition permutation (g : Z) (n : nat) : list nat * Z :=
  (if Z.even g then seq 0 n else reverse (seq 0 n), g + 1).

Lemma permutation_perm g n : (permutation g n).1 ≡ₚ seq 0 n.
Proof.
  unfold permutation; simpl. destruct (Z.even g); [done|].
  apply reverse_Permutation.
Qed.

#[export] Instance rng : NumpyRandom :=
  {| rng_state := Z; mt_seed := fun s => s; mt_permutation := permutation;
     mt_permutation_perm := permutation_perm |}.

(** An engine that counts its steps and reports constant losses. *)
#[export] Instance tensors : TensorEngine :=
  {| engine := nat; tensor := nat; weights := nat;
     tf_random_normal := fun _ e => (e, S e);
     generator_call := fun t e => (t, e);
     critic_train_on_batch := fun _ _ e => ((1, 0)%Q, S e);
     model_train_on_batch := fun _ _ e => (1%Q, S e);
     generator_weights := fun e => e;
     critic_weights := fun e => e |}.

(** A framework that rejects negative sizes and nothing else. *)
#[export] Instance keras : Keras :=
  {| Input_accepts := fun shape _ => 0 <=? shape;
     Dense_accepts := fun units => 0 <=? units |}.

(** Ten rows of three columns, labelled [0 .. 9]. *)
Definition dataset : DataFrame Q :=
  {| df_columns := 3;
     df_rows := (fun i => (Z.of_nat i, [inject_Z (Z.of_nat i); 0%Q; 1%Q])) <$> seq 0 10 |}.

Definition world : World (RNG := rng) (TF := tensors) :=
  {| np_rng := 7; tf := 0%nat; fs := ∅; log := [] |}.

(** A world in which the checkpoint directory exists. *)
Definition cache_world : World (RNG := rng) (TF := tensors) :=
  {| np_rng := 7; tf := 0%nat; fs := {[ "./cache"%string := Directory ]}; log := [] |}.

Definition controller (n_critic : Z) : result WGAN :=
  WGAN_init (K := keras) (4, (1 # 1000)%Q, 2, 3, 8) n_critic.

(** The controller of the end-to-end scenario, with [n_critic] left open. *)
Definition self (n_critic : Z) : WGAN :=
  match controller n_critic with
  | Ok c => c
  | Raise _ =>
      {| n_critic := n_critic; batch_size := 4; lr := 1 # 1000; noise_dim := 2;
         data_dim := 3; layers_dim := 8; generator := PyNone;
         critic := {| model_batch_size := 4; model_input_shape := 3;
                      model_layers := [] |} |}
  end.

End Demo.

(** * Properties *)

(** ** Slices, lookups and frames *)

Lemma py_slice_nonneg {A} (l : list A) (a b : Z) :
  0 <= a -> 0 <= b ->
  py_slice l a b =
    take (Z.to_nat (Z.min b (Z.of_nat (length l)) - Z.min a (Z.of_nat (length l))))
         (drop (Z.to_nat (Z.min a (Z.of_nat (length l)))) l).
Proof.
  intros Ha Hb. unfold py_slice, py_clamp.
  destruct (Z.ltb_spec a 0), (Z.ltb_spec b 0); try lia. reflexivity.
Qed.

Lemma py_slice_inside {A} (l : list A) (a b : Z) :
  0 <= a -> a <= b -> b <= Z.of_nat (length l) ->
  py_slice l a b = take (Z.to_nat (b - a)) (drop (Z.to_nat a) l).
Proof.
  intros Ha Hab Hb. rewrite py_slice_nonneg by lia.
  rewrite !Z.min_l by lia. reflexivity.
Qed.

Lemma length_py_slice_inside {A} (l : list A) (a b : Z) :
  0 <= a -> a <= b -> b <= Z.of_nat (length l) ->
  length (py_slice l a b) = Z.to_nat (b - a).
Proof.
  intros Ha Hab Hb. rewrite py_slice_inside by lia.
  rewrite length_take, length_drop. lia.
Qed.

Lemma omap_lookup_seq {A} (pre l : list A) :
  omap (fun i => (pre ++ l) !! i) (seq (length pre) (length l)) = l.
Proof.
  revert pre. induction l as [|x l IH]; intros pre; [reflexivity|].
  cbn [length seq omap list_omap].
  rewrite lookup_app_r, Nat.sub_diag by lia. cbn.
  f_equal. specialize (IH (pre ++ [x])).
  rewrite <- (assoc_L (++)) in IH. rewrite length_app in IH. cbn in IH.
  rewrite Nat.add_1_r in IH. exact IH.
Qed.

(** Selecting along a permutation of the positions permutes the list. *)
Lemma omap_lookup_Permutation {A} (l : list A) (idx : list nat) :
  idx ≡ₚ seq 0 (length l) -> omap (fun i => l !! i) idx ≡ₚ l.
Proof.
  intros Hp. rewrite Hp. pose proof (omap_lookup_seq [] l) as Hs.
  cbn in Hs. rewrite Hs. reflexivity.
Qed.

(** With unique labels, a label selects exactly one row. *)
Lemma filter_label_length {A} (rows : list (Z * list A)) (l : Z) :
  NoDup (fst <$> rows) -> l ∈ fst <$> rows ->
  length (filter (fun r => r.1 = l) rows) = 1%nat.
Proof.
  induction rows as [|[k r] rows IH]; intros Hnd Hin.
  - inversion Hin.
  - rewrite fmap_cons in Hnd, Hin. apply NoDup_cons in Hnd as [Hk Hnd].
    rewrite filter_cons. cbn [fst] in *. destruct (decide (k = l)) as [->|Hne].
    + cbn. f_equal.
      destruct (filter (fun r0 : Z * list A => r0.1 = l) rows) as [|[k' r'] t] eqn:Hf;
        [reflexivity|exfalso].
      assert (Hin' : (k', r') ∈ filter (fun r0 : Z * list A => r0.1 = l) rows)
        by (rewrite Hf; left).
      apply list_elem_of_filter in Hin' as [Heq Hin']. cbn in Heq. subst k'.
      apply Hk. apply list_elem_of_fmap. exists (l, r'). split; [reflexivity|exact Hin'].
    + apply IH; [exact Hnd|]. apply elem_of_cons in Hin as [Heq|Hin]; [congruence|exact Hin].
Qed.

Lemma loc_rows_ok {A} (rows : list (Z * list A)) (labels : list Z) :
  (forall l, l ∈ labels -> l ∈ fst <$> rows) ->
  loc_rows rows labels =
    Ok (labels ≫= fun l => filter (fun r => r.1 = l) rows).
Proof.
  induction labels as [|l ls IH]; intros Hin; [reflexivity|].
  cbn [loc_rows]. rewrite IH by (intros; apply Hin; right; assumption).
  destruct (filter (fun r => r.1 = l) rows) as [|h t] eqn:Hf.
  - exfalso. assert (Hl : l ∈ fst <$> rows) by (apply Hin; left).
    apply list_elem_of_fmap in Hl as [[k r] [Heq Hr]]. cbn in Heq. subst l.
    assert (Hr' : (k, r) ∈ filter (fun r0 : Z * list A => r0.1 = k) rows)
      by (apply list_elem_of_filter; split; [reflexivity|exact Hr]).
    rewrite Hf in Hr'. inversion Hr'.
  - cbn. rewrite Hf. reflexivity.
Qed.

Lemma loc_rows_length {A} (rows : list (Z * list A)) (labels : list Z) :
  NoDup (fst <$> rows) -> (forall l, l ∈ labels -> l ∈ fst <$> rows) ->
  length (labels ≫= fun l => filter (fun r => r.1 = l) rows) = length labels.
Proof.
  intros Hnd. induction labels as [|l ls IH]; intros Hin; [reflexivity|].
  cbn. rewrite length_app, IH by (intros; apply Hin; right; assumption).
  rewrite filter_label_length; [reflexivity|exact Hnd|apply Hin; left].
Qed.

(** ** The batch sampler *)

Section SamplerProperties.
Context {RNG : NumpyRandom} {A : Type}.
Implicit Types (train : DataFrame A) (g : rng_state).

Lemma np_random_choice_eq (a : list Z) g :
  np_random_choice a g = (Ok (shuffled a g), (mt_permutation g (length a)).2).
Proof. reflexivity. Qed.

Lemma shuffled_Permutation (a : list Z) g : shuffled a g ≡ₚ a.
Proof.
  unfold shuffled. pose proof (mt_permutation_perm g (length a)) as Hp.
  rewrite firstn_all2.
  - apply omap_lookup_Permutation, Hp.
  - apply Permutation_length in Hp. rewrite Hp, length_seq. lia.
Qed.

Lemma length_shuffled (a : list Z) g : length (shuffled a g) = length a.
Proof. apply Permutation_length, shuffled_Permutation. Qed.

(** The sampler's outcome does not depend on the state the generator was
    in before the call; when it gets as far as seeding, neither does the
    state it leaves behind. *)
Lemma batch_labels_reseeded train (bs seed : Z) g1 g2 :
  (batch_labels train bs seed g1).1 = (batch_labels train bs seed g2).1
  /\ (forall ix, (batch_labels train bs seed g1).1 = Ok ix ->
        (batch_labels train bs seed g1).2 = (batch_labels train bs seed g2).2).
Proof.
  unfold batch_labels, bind, lift, ret, np_random_seed.
  destruct (py_mod (bs * seed) (df_len train)) as [start|e]; [|split; [reflexivity|discriminate]].
  destruct (py_floordiv (bs * seed) (df_len train)) as [s|e]; [|split; [reflexivity|discriminate]].
  destruct ((0 <=? s) && (s <? 2 ^ 32)); [|split; [reflexivity|discriminate]].
  rewrite np_random_choice_eq. split; reflexivity.
Qed.

Lemma get_data_batch_reseeded train (bs seed : Z) g1 g2 :
  (get_data_batch train bs seed g1).1 = (get_data_batch train bs seed g2).1.
Proof.
  unfold get_data_batch, bind, lift.
  destruct (batch_labels_reseeded train bs seed g1 g2) as [H1 H2].
  destruct (batch_labels train bs seed g1) as [[ix1|e1] s1],
           (batch_labels train bs seed g2) as [[ix2|e2] s2];
    cbn in H1; try discriminate; [|cbn; congruence].
  injection H1 as ->.
  destruct (df_loc train ix2) as [x|e]; [|reflexivity].
  destruct (np_reshape (df_values x) bs); reflexivity.
Qed.

(** The state a successful or failed call leaves behind is a fixed point:
    a second call from there ends in the same state. *)
Lemma get_data_batch_again train (bs seed : Z) g :
  (get_data_batch train bs seed (get_data_batch train bs seed g).2).1
  = (get_data_batch train bs seed g).1.
Proof. apply get_data_batch_reseeded. Qed.

(** What the sampler selects when the data set is not empty and the shuffle
    seed is one that [np.random.seed] takes. *)
Lemma batch_labels_eq train (bs seed : Z) g :
  0 < df_len train ->
  0 <= bs * seed / df_len train < 2 ^ 32 ->
  let p := shuffled (df_index train) (mt_seed (bs * seed / df_len train)) in
  (batch_labels train bs seed g).1 =
    Ok (py_slice (p ++ p) (bs * seed mod df_len train)
                 (bs * seed mod df_len train + bs)).
Proof.
  intros Hn Hs p. unfold batch_labels, bind, lift, ret, np_random_seed, py_mod, py_floordiv.
  destruct (Z.eqb_spec (df_len train) 0) as [?|_]; [lia|].
  destruct (Z.leb_spec 0 (bs * seed / df_len train)); [|lia].
  destruct (Z.ltb_spec (bs * seed / df_len train) (2 ^ 32)); [|lia].
  cbn [andb]. rewrite np_random_choice_eq. reflexivity.
Qed.

Lemma length_df_index train : Z.of_nat (length (df_index train)) = df_len train.
Proof. unfold df_index, df_len. rewrite length_fmap. reflexivity. Qed.

(** The batch, when the slice stays inside the duplicated index list. *)
Lemma get_data_batch_ok train (bs seed : Z) g :
  rectangular train -> NoDup (df_index train) ->
  0 < df_len train -> 0 < bs ->
  0 <= bs * seed / df_len train < 2 ^ 32 ->
  bs * seed mod df_len train + bs <= 2 * df_len train ->
  let p := shuffled (df_index train) (mt_seed (bs * seed / df_len train)) in
  let ix := take (Z.to_nat bs) (drop (Z.to_nat (bs * seed mod df_len train)) (p ++ p)) in
  (get_data_batch train bs seed g).1 =
    Ok {| shape := (bs, Z.of_nat (df_columns train));
          flat := concat (snd <$> (ix ≫= fun l => filter (fun r => r.1 = l) (df_rows train))) |}.
Proof.
  intros Hrect Hnd Hn Hbs Hs Hstop p ix.
  pose proof (batch_labels_eq train bs seed g Hn Hs) as Hl. cbn zeta in Hl. fold p in Hl.
  unfold get_data_batch, bind, lift.
  destruct (batch_labels train bs seed g) as [r g']. cbn in Hl. subst r.
  assert (Hlen : Z.of_nat (length (p ++ p)) = 2 * df_len train).
  { rewrite length_app. unfold p. rewrite length_shuffled.
    pose proof (length_df_index train). lia. }
  pose proof (Z.mod_pos_bound (bs * seed) (df_len train) Hn) as Hm.
  rewrite py_slice_inside by lia.
  replace (bs * seed mod df_len train + bs - bs * seed mod df_len train) with bs by lia.
  fold ix.
  assert (Hix : forall l, l ∈ ix -> l ∈ fst <$> df_rows train).
  { intros l Hin. unfold ix in Hin.
    apply elem_of_take in Hin as (i & Hi & _). rewrite lookup_drop in Hi.
    apply list_elem_of_lookup_2, elem_of_app in Hi.
    assert (Hp : l ∈ p) by tauto.
    unfold p in Hp. rewrite shuffled_Permutation in Hp. exact Hp. }
  unfold df_loc. rewrite loc_rows_ok by exact Hix.
  unfold np_reshape, df_values, df_len. cbn [shape flat df_rows df_columns fst snd].
  rewrite loc_rows_length by assumption.
  assert (Hlix : Z.of_nat (length ix) = bs).
  { unfold ix. rewrite length_take, length_drop. lia. }
  rewrite Hlix.
  destruct (Z.leb_spec bs 0); [lia|].
  rewrite Z.mul_comm, Z.mod_mul, Z.div_mul by lia. reflexivity.
Qed.

End SamplerProperties.

Section SamplerClaims.
Context {RNG : NumpyRandom} {A : Type}.

(** C7. Batch sampler determinism: two calls with the same data set, batch
    size and step seed return the same outcome whatever state the
    process-wide generator was in before each of them, because the call
    re-seeds it before drawing the permutation; in particular a second
    call made right after the first returns what the first returned. *)
Theorem sampler_deterministic (train : DataFrame A) (bs seed : Z) (g1 g2 : rng_state) :
  (get_data_batch train bs seed g1).1 = (get_data_batch train bs seed g2).1
  /\ (get_data_batch train bs seed (get_data_batch train bs seed g1).2).1
     = (get_data_batch train bs seed g1).1.
Proof.
  split; [apply get_data_batch_reseeded|apply get_data_batch_again].
Qed.


(** C2. The batch shape fails for a batch longer than the duplicated index
    list. On a data set of one row the index list has two entries after
    the duplication, so a batch of size 3 selects two rows only: with one
    column the reshape to three rows raises an error, with three columns
    it yields a matrix of shape (3, 2) that is not (3, 3). *)
Theorem sampler_short_batch (x y z : A) (g : rng_state) :
  (get_data_batch {| df_columns := 1; df_rows := [(0, [x])] |} 3 0 g).1
    = Raise ValueError
  /\ (get_data_batch {| df_columns := 3; df_rows := [(0, [x; y; z])] |} 3 0 g).1
    = Ok {| shape := (3, 2); flat := [x; y; z; x; y; z] |}.
Proof.
  assert (Hs : shuffled [0] (mt_seed 0) = [0]).
  { apply Permutation_singleton_r, shuffled_Permutation. }
  assert (Hl : forall train : DataFrame A, df_index train = [0] ->
            (batch_labels train 3 0 g).1 = Ok [0; 0]).
  { intros train Hix.
    assert (Hn : df_len train = 1) by (rewrite <- length_df_index, Hix; reflexivity).
    rewrite batch_labels_eq; rewrite Hn;
      [|reflexivity|split; [discriminate|reflexivity]].
    rewrite Hix. change (3 * 0 / 1) with 0. rewrite Hs. reflexivity. }
  split.
  - unfold get_data_batch, bind, lift.
    specialize (Hl {| df_columns := 1; df_rows := [(0, [x])] |} eq_refl).
    destruct (batch_labels _ 3 0 g) as [r g']. cbn in Hl. subst r. reflexivity.
  - unfold get_data_batch, bind, lift.
    specialize (Hl {| df_columns := 3; df_rows := [(0, [x; y; z])] |} eq_refl).
    destruct (batch_labels _ 3 0 g) as [r g']. cbn in Hl. subst r. reflexivity.
Qed.

End SamplerClaims.


(** ** The Wasserstein loss *)

Lemma tf_multiply_same_length (a b : list Q) :
  length a = length b -> tf_multiply a b = Ok (zip_with Qmult a b).
Proof. intros Hl. unfold tf_multiply. rewrite decide_True by exact Hl. reflexivity. Qed.

Lemma Qsum_products (a b : list Q) :
  Qsum (zip_with Qmult a b) = spec_sum_of_products a b.
Proof.
  revert b. induction a as [|x a IH]; intros [|y b]; cbn; try reflexivity.
  unfold Qsum in IH. rewrite IH. reflexivity.
Qed.

Lemma Qsum_scaled (k : Q) (p : list Q) :
  (Qsum (zip_with Qmult (replicate (length p) k) p) == k * Qsum p)%Q.
Proof.
  induction p as [|x p IH]; cbn.
  - ring.
  - unfold Qsum in IH. rewrite IH. ring.
Qed.

Lemma K_mean_scaled (k : Q) (p : list Q) :
  loss_eq (K_mean (zip_with Qmult (replicate (length p) k) p))
          (Qmult k <$> K_mean p).
Proof.
  destruct p as [|x p]; [exact I|].
  pose proof (Qsum_scaled k (x :: p)) as Hs.
  cbn [length replicate zip_with] in *. cbn [K_mean fmap option_fmap option_map loss_eq].
  cbn [length]. rewrite length_zip_with, length_replicate, Nat.min_id.
  rewrite Hs. unfold Qdiv. ring.
Qed.

(** C3. For label and prediction vectors of the same shape the loss is the
    mean of the elementwise products, as the specification words it; for
    any prediction vector [p], the loss against the all-(-1) labels is
    [-mean(p)] and the loss against the all-(+1) labels is [mean(p)]. *)
Theorem wasserstein_loss_spec (y_true y_pred p : list Q) :
  length y_true = length y_pred ->
  wasserstein_loss y_true y_pred = Ok (K_mean (zip_with Qmult y_true y_pred))
  /\ wasserstein_loss y_true y_pred = Ok (spec_loss y_true y_pred)
  /\ result_loss_eq (wasserstein_loss (replicate (length p) (-1)%Q) p)
                    (Ok (Qopp <$> K_mean p))
  /\ result_loss_eq (wasserstein_loss (replicate (length p) 1%Q) p)
                    (Ok (K_mean p)).
Proof.
  intros Hl. unfold wasserstein_loss.
  rewrite (tf_multiply_same_length y_true y_pred Hl).
  rewrite !tf_multiply_same_length by (rewrite length_replicate; reflexivity).
  split; [reflexivity|]. split; [|split].
  - f_equal. unfold K_mean, spec_loss. rewrite <- Qsum_products.
    destruct y_true, y_pred; try discriminate; try reflexivity.
    cbn [length zip_with]. rewrite length_zip_with.
    injection Hl as Hl. rewrite Hl, Nat.min_id. reflexivity.
  - cbn [result_loss_eq]. pose proof (K_mean_scaled (-1) p) as Hk.
    destruct (K_mean (zip_with Qmult (replicate (length p) (-1)%Q) p)), (K_mean p);
      cbn [loss_eq fmap option_fmap option_map] in *;
      first [tauto | rewrite Hk; ring].
  - cbn [result_loss_eq]. pose proof (K_mean_scaled 1 p) as Hk.
    destruct (K_mean (zip_with Qmult (replicate (length p) 1%Q) p)), (K_mean p);
      cbn [loss_eq fmap option_fmap option_map] in *;
      first [tauto | rewrite Hk; ring].
Qed.

Lemma wasserstein_loss_spec_witness :
  length [(-1)%Q; (-1)%Q] = length [(3 # 2)%Q; (1 # 2)%Q]
  /\ wasserstein_loss [(-1)%Q; (-1)%Q] [(3 # 2)%Q; (1 # 2)%Q]
     = Ok (spec_loss [(-1)%Q; (-1)%Q] [(3 # 2)%Q; (1 # 2)%Q]).
Proof.
  split; [reflexivity|].
  apply (wasserstein_loss_spec [(-1)%Q; (-1)%Q] [(3 # 2)%Q; (1 # 2)%Q] []).
  reflexivity.
Defined.

(** ** The weight clipper and the critic's variables *)

Lemma backend_clip_within (x c : Q) :
  (0 <= c)%Q -> (- c <= backend_clip x (- c) c)%Q /\ (backend_clip x (- c) c <= c)%Q.
Proof.
  intros Hc. unfold backend_clip.
  assert (Hle : (- c <= c)%Q).
  { apply Qle_trans with 0%Q; [|exact Hc].
    apply (Qopp_le_compat 0 c) in Hc. exact Hc. }
  apply Qle_bool_iff in Hle as Hb. rewrite Hb. split.
  - apply Q.le_max_r.
  - apply Q.max_lub; [apply Q.le_min_r|exact Hle].
Qed.

Lemma ClipConstraint_call_within (c : ClipConstraint) (ws : list Q) :
  (0 <= clip_value c)%Q -> within (clip_value c) (ClipConstraint_call c ws).
Proof.
  intros Hc. unfold within, ClipConstraint_call.
  apply Forall_fmap, Forall_forall. intros w _. apply backend_clip_within, Hc.
Qed.

Lemma apply_gradients_meta (raw : variable -> list Q) (vs : list variable) :
  var_meta <$> apply_gradients raw vs = var_meta <$> vs.
Proof.
  unfold apply_gradients. rewrite <- list_fmap_compose.
  apply list_fmap_ext. intros _ v _. reflexivity.
Qed.

Lemma updates_meta (raws : list (variable -> list Q)) (vs : list variable) :
  var_meta <$> foldl (fun vs r => apply_gradients r vs) vs raws = var_meta <$> vs.
Proof.
  revert vs. induction raws as [|r raws IH]; intros vs; [reflexivity|].
  cbn [foldl]. rewrite IH. apply apply_gradients_meta.
Qed.

(** The variables of the critic, layer by layer: the kernels of the three
    hidden layers are constrained, the biases and the output layer are not. *)
Lemma critic_meta (bs input_shape dim : Z) (init : Q) :
  var_meta <$> trainable_weights
    {| model_batch_size := bs; model_input_shape := input_shape;
       model_layers := Critic_layers dim |} init
  = [ (0%nat, kernel, Some {| clip_value := 1 # 100 |}); (0%nat, bias, None);
      (2%nat, kernel, Some {| clip_value := 1 # 100 |}); (2%nat, bias, None);
      (4%nat, kernel, Some {| clip_value := 1 # 100 |}); (4%nat, bias, None);
      (5%nat, kernel, None); (5%nat, bias, None) ].
Proof. reflexivity. Qed.

Section BuilderClaims.
Context {K : Keras}.

Lemma Critic_build_model_layers (bs input_shape dim : Z) (critic : Model) :
  Critic_build_model bs input_shape dim = Ok critic ->
  critic = {| model_batch_size := bs; model_input_shape := input_shape;
              model_layers := Critic_layers dim |}.
Proof.
  unfold Critic_build_model, functional_model.
  destruct (Input input_shape (Some bs)); [|discriminate].
  destruct (stack (Critic_layers dim) a); [|discriminate].
  intros [= <-]. reflexivity.
Qed.

(** C1, as the code has it. After any sequence of optimizer steps that
    ends with an update, every element of the kernels of the three hidden
    Dense layers of the critic (layers 0, 2 and 4 of the stack) lies in
    [-0.01, 0.01]; the bias vectors and both variables of the output layer
    carry no constraint and hold exactly what the optimizer wrote. *)
Theorem critic_hidden_kernels_clipped (bs input_shape dim : Z) (critic : Model)
    (init : Q) (raws : list (variable -> list Q)) (raw : variable -> list Q)
    (v0 : variable) :
  Critic_build_model bs input_shape dim = Ok critic ->
  v0 ∈ foldl (fun vs r => apply_gradients r vs) (trainable_weights critic init) raws ->
  let v := update_variable raw v0 in
  v ∈ apply_gradients raw
        (foldl (fun vs r => apply_gradients r vs) (trainable_weights critic init) raws)
  /\ (var_kind_of v = kernel -> var_layer v <> 5%nat ->
      within (1 # 100) (var_value v))
  /\ (var_kind_of v = bias \/ var_layer v = 5%nat -> var_value v = raw v0).
Proof.
  intros Hb Hin v. apply Critic_build_model_layers in Hb. subst critic.
  split; [apply list_elem_of_fmap; exists v0; split; [reflexivity|exact Hin]|].
  assert (Hm : var_meta v0 ∈ var_meta <$>
                 foldl (fun vs r => apply_gradients r vs)
                   (trainable_weights {| model_batch_size := bs;
                      model_input_shape := input_shape;
                      model_layers := Critic_layers dim |} init) raws)
    by (apply list_elem_of_fmap; exists v0; split; [reflexivity|exact Hin]).
  rewrite updates_meta, critic_meta in Hm.
  unfold v, update_variable, var_meta in *. cbn [var_kind_of var_layer var_value].
  repeat (apply elem_of_cons in Hm as [Hm|Hm]); [..|inversion Hm];
    injection Hm as Hl Hk Hc; rewrite Hl, Hk, Hc; split; intros; try congruence;
    try (apply (ClipConstraint_call_within {| clip_value := 1 # 100 |}); discriminate);
    try reflexivity; intuition congruence.
Qed.

(** C9, as the code has it. The constructor and the two builders check no
    dimension themselves: construction succeeds exactly when the framework
    accepts every [Input] and [Dense] call that the builders make with the
    caller's numbers. *)
Theorem WGAN_init_delegates (bs : Z) (rate : Q) (nd dd ld nc : Z) :
  (exists self, WGAN_init (bs, rate, nd, dd, ld) nc = Ok self)
  <-> Input_accepts nd (Some bs) = true
      /\ Dense_accepts ld = true /\ Dense_accepts (ld * 2) = true
      /\ Dense_accepts (ld * 4) = true /\ Dense_accepts dd = true
      /\ Input_accepts dd (Some bs) = true /\ Dense_accepts 1 = true
      /\ Input_accepts nd None = true.
Proof.
  unfold WGAN_init, define_gan, Generator_build_model, Critic_build_model,
    functional_model, Generator_layers, Critic_layers, Input, stack, call_layer.
  destruct (Input_accepts nd (Some bs)); [|split; [intros [? [=]]|intros [[=] _]]].
  destruct (Dense_accepts ld); [|split; [intros [? [=]]|intros (_ & [=] & _)]].
  destruct (Dense_accepts (ld * 2)); [|split; [intros [? [=]]|intros (_ & _ & [=] & _)]].
  destruct (Dense_accepts (ld * 4)); [|split; [intros [? [=]]|intros (_ & _ & _ & [=] & _)]].
  destruct (Dense_accepts dd); [|split; [intros [? [=]]|intros (_ & _ & _ & _ & [=] & _)]].
  destruct (Input_accepts dd (Some bs));
    [|split; [intros [? [=]]|intros (_ & _ & _ & _ & _ & [=] & _)]].
  destruct (Dense_accepts 1);
    [|split; [intros [? [=]]|intros (_ & _ & _ & _ & _ & _ & [=] & _)]].
  destruct (Input_accepts nd None);
    [|split; [intros [? [=]]|intros (_ & _ & _ & _ & _ & _ & _ & [=])]].
  split; [intros _; repeat split|intros _; eexists; reflexivity].
Qed.

End BuilderClaims.

Lemma critic_hidden_kernels_clipped_witness :
  let critic := {| model_batch_size := 4; model_input_shape := 3;
                   model_layers := Critic_layers 8 |} in
  let raw := fun v : variable => (fun _ => 1%Q) <$> var_value v in
  let v0 := {| var_layer := 0; var_kind_of := kernel;
               var_constraint := Some {| clip_value := 1 # 100 |};
               var_value := replicate 96 0%Q |} in
  within (1 # 100) (var_value (update_variable raw v0)).
Proof.
  intros critic raw v0.
  refine (proj1 (proj2 (critic_hidden_kernels_clipped (K := Demo.keras)
            4 3 8 critic 0%Q [] raw v0 _ _)) _ _).
  - reflexivity.
  - left.
  - reflexivity.
  - discriminate.
Defined.

(** C1 fails as stated: after an update that writes 1 into every element,
    the kernel of the critic's output layer and the bias of its first
    layer hold 1, which is outside [-0.01, 0.01]. *)
Lemma critic_output_layer_unclipped :
  let critic := {| model_batch_size := 4; model_input_shape := 3;
                   model_layers := Critic_layers 8 |} in
  let raw := fun v : variable => (fun _ => 1%Q) <$> var_value v in
  Critic_build_model (K := Demo.keras) 4 3 8 = Ok critic
  /\ exists v b,
       v ∈ apply_gradients raw (trainable_weights critic 0%Q)
       /\ var_layer v = 5%nat /\ var_kind_of v = kernel
       /\ ~ within (1 # 100) (var_value v)
       /\ b ∈ apply_gradients raw (trainable_weights critic 0%Q)
       /\ var_layer b = 0%nat /\ var_kind_of b = bias
       /\ ~ within (1 # 100) (var_value b).
Proof.
  intros critic raw. split; [reflexivity|].
  exists {| var_layer := 5; var_kind_of := kernel; var_constraint := None;
            var_value := replicate 8 1%Q |},
         {| var_layer := 0; var_kind_of := bias; var_constraint := None;
            var_value := replicate 32 1%Q |}.
  assert (Hout : forall n, ~ within (1 # 100) (replicate (S n) 1%Q)).
  { intros n Hw. apply Forall_cons in Hw as [[_ Hle] _].
    unfold Qle in Hle. cbn in Hle. lia. }
  repeat split; try apply Hout.
  - apply list_elem_of_In. do 6 right. left. reflexivity.
  - apply list_elem_of_In. right. left. reflexivity.
Qed.

(** C9 fails as stated: with a framework that rejects negative sizes only,
    a controller with a zero noise dimension, a zero data dimension or a
    zero layer width is constructed without an error. *)
Lemma WGAN_init_zero_dimension :
  (exists self, WGAN_init (K := Demo.keras) (4, (1 # 1000)%Q, 0, 3, 8) 2 = Ok self
                /\ noise_dim self <= 0)
  /\ (exists self, WGAN_init (K := Demo.keras) (4, (1 # 1000)%Q, 2, 0, 8) 2 = Ok self
                   /\ data_dim self <= 0)
  /\ (exists self, WGAN_init (K := Demo.keras) (4, (1 # 1000)%Q, 2, 3, 0) 2 = Ok self
                   /\ layers_dim self <= 0).
Proof.
  repeat split; eexists; (split; [reflexivity|cbn; lia]).
Qed.

(** ** Checkpoint names *)

Lemma py_format_brace_free (s rest : string) (args : list string) :
  brace_free s = true ->
  py_format (s +:+ rest) args = prepend s (py_format rest args).
Proof.
  induction s as [|c s IH]; intros Hb.
  - change ("" +:+ rest) with rest. destruct (py_format rest args); reflexivity.
  - cbn in Hb. apply andb_prop in Hb as [Hc Hs]. apply andb_prop in Hc as [Ho Hc].
    apply negb_true_iff in Ho, Hc.
    change (String c s +:+ rest) with (String c (s +:+ rest)).
    cbn [py_format]. rewrite Ho, Hc, (IH Hs).
    destruct (py_format rest args); reflexivity.
Qed.

(** For a prefix without braces the code builds the prescribed name. *)
Lemma checkpoint_name_brace_free (cache_prefix role : string) (epoch : Z) :
  brace_free cache_prefix = true ->
  checkpoint_name cache_prefix role epoch
  = Ok (spec_checkpoint_name cache_prefix role epoch).
Proof.
  intros Hb. unfold checkpoint_name, spec_checkpoint_name.
  rewrite (py_format_brace_free "./cache/") by reflexivity.
  rewrite (py_format_brace_free cache_prefix) by exact Hb.
  reflexivity.
Qed.

(** ** The training loop *)

Lemma py_range_nonpos (n : Z) : n < 1 -> py_range n = [].
Proof. intros Hn. unfold py_range. replace (Z.to_nat n) with 0%nat by lia. reflexivity. Qed.

Lemma py_range_pos (n : Z) :
  0 < n -> py_range n = 0 :: (Z.of_nat <$> seq 1 (Z.to_nat n - 1)).
Proof.
  intros Hn. unfold py_range.
  replace (Z.to_nat n) with (S (Z.to_nat n - 1)) at 1 by lia. reflexivity.
Qed.

Section ControllerProperties.
Context {RNG : NumpyRandom} {TF : TensorEngine}.
Implicit Types (w : World) (self : WGAN) (data : DataFrame Q).

Lemma emits_ret {X} F P (Q : X -> Prop) (a : X) : Q a -> emits F P Q (ret a).
Proof.
  intros Ha w. split; [reflexivity|].
  split; [exists []; split; [reflexivity|constructor]|].
  intros b [= <-]. exact Ha.
Qed.

Lemma emits_raise {X} F P (Q : X -> Prop) e : emits F P Q (raise e).
Proof.
  intros w. split; [reflexivity|].
  split; [exists []; split; [reflexivity|constructor]|]. intros b [=].
Qed.

Lemma emits_lift {X} F P (Q : X -> Prop) (r : result X) :
  (forall a, r = Ok a -> Q a) -> emits F P Q (lift r).
Proof.
  intros Hr w. split; [reflexivity|].
  split; [exists []; split; [reflexivity|constructor]|]. exact Hr.
Qed.

Lemma emits_bind {X Y} F P (Q : X -> Prop) (R : Y -> Prop) (m : Py World X)
    (k : X -> Py World Y) :
  emits F P Q m -> (forall a, Q a -> emits F P R (k a)) -> emits F P R (bind m k).
Proof.
  intros Hm Hk w. unfold bind. destruct (Hm w) as (Hfs & (new & Hlog & Hnew) & Hq).
  destruct (m w) as [[a|e] w1]; cbn in *.
  - destruct (Hk a (Hq a eq_refl) w1) as (Hfs' & (new' & Hlog' & Hnew') & Hr).
    split; [intros HF; rewrite (Hfs' HF); exact (Hfs HF)|].
    split; [|exact Hr]. exists (new' ++ new). split.
    + rewrite Hlog', Hlog. apply (assoc_L (++)).
    + apply Forall_app. split; assumption.
  - split; [exact Hfs|]. split; [exists new; split; assumption|]. intros b [=].
Qed.

Lemma emits_weaken {X} F (P P' : event tensor -> Prop) (Q : X -> Prop) (m : Py World X) :
  (forall ev, P ev -> P' ev) -> emits true P Q m -> emits F P' Q m.
Proof.
  intros HP Hm w. destruct (Hm w) as (Hfs & (new & Hlog & Hnew) & Hq).
  split; [intros _; exact (Hfs eq_refl)|]. split; [|exact Hq].
  exists new. split; [exact Hlog|]. eapply Forall_impl; [exact Hnew|exact HP].
Qed.

Lemma emits_emit F P (e : event tensor) : P e -> emits F P (fun _ => True) (emit e).
Proof.
  intros He w. split; [reflexivity|]. split; [|intros; exact I].
  exists [e]. split; [reflexivity|]. constructor; [exact He|constructor].
Qed.

Lemma emits_with_rng {X} F P (Q : X -> Prop) (m : Py rng_state X) :
  (forall g a, (m g).1 = Ok a -> Q a) -> emits F P Q (with_rng m).
Proof.
  intros Hm w. unfold with_rng. specialize (Hm (np_rng w)).
  destruct (m (np_rng w)) as [r g]. cbn in *. split; [reflexivity|].
  split; [exists []; split; [reflexivity|constructor]|]. exact Hm.
Qed.

Lemma emits_with_tf {X} F P (op : engine -> X * engine) :
  emits F P (fun _ => True) (with_tf op).
Proof.
  intros w. unfold with_tf. destruct (op (tf w)) as [x e]. cbn.
  split; [reflexivity|].
  split; [exists []; split; [reflexivity|constructor]|]. intros; exact I.
Qed.

Lemma emits_for_local {X L} F P (xs : list X) (body : X -> L -> Py World L) (l : L) :
  (forall x l', emits F P (fun _ => True) (body x l')) ->
  emits F P (fun _ => True) (for_local xs body l).
Proof.
  intros Hb. revert l. induction xs as [|x xs IH]; intros l; cbn [for_local].
  - apply emits_ret. exact I.
  - eapply emits_bind; [apply Hb|]. intros l' _. apply IH.
Qed.

Lemma emits_checkpoint P (cache_prefix : string) (epoch : Z) :
  (forall p, P (Mkdir p)) -> (forall r p, P (Saved r p)) ->
  emits false P (fun _ => True) (checkpoint cache_prefix epoch).
Proof.
  intros Hmk Hsv. unfold checkpoint, os_mkdir, save_weights, path_exists, modify.
  intros w. cbn. unfold bind, lift, ret, emit, modify.
  destruct (bool_decide (is_Some (fs w !! "./cache"%string)));
    destruct (checkpoint_name cache_prefix "generator" epoch) as [gf|e];
    cbn; try destruct (checkpoint_name cache_prefix "critic" epoch) as [cf|e'];
    cbn; (split; [discriminate|]); (split; [|intros; exact I]).
  all: first
    [ exists [] ; split; [reflexivity|repeat constructor]
    | eexists [_]; split; [reflexivity|repeat constructor; auto]
    | eexists [_; _]; split; [reflexivity|repeat constructor; auto]
    | eexists [_; _; _]; split; [reflexivity|repeat constructor; auto] ].
Qed.

Lemma emits_critic_iteration self data (valid fake : ndarray Q) :
  emits true (seed_zero self data) (fun _ => True)
    (critic_iteration self data valid fake).
Proof.
  unfold critic_iteration.
  eapply emits_bind; [apply emits_emit; split; reflexivity|]. intros _ _.
  eapply (emits_bind _ _
            (fun x => forall g, (get_data_batch data (batch_size self) 0 g).1 = Ok x)).
  { apply emits_with_rng. intros g x Hx g'.
    rewrite (get_data_batch_reseeded data (batch_size self) 0 g' g). exact Hx. }
  intros batch_data Hbatch.
  eapply emits_bind; [apply emits_with_tf|]. intros noise _.
  eapply emits_bind; [apply emits_with_tf|]. intros gen_data _.
  eapply emits_bind; [apply emits_emit; exact Hbatch|]. intros _ _.
  eapply emits_bind; [apply emits_with_tf|]. intros d_loss_real _.
  eapply emits_bind; [apply emits_emit; exact I|]. intros _ _.
  eapply emits_bind; [apply emits_with_tf|]. intros d_loss_fake _.
  apply emits_ret. exact I.
Qed.

(** The critic loop of one epoch. *)
Lemma emits_critic_loop self data (valid fake : ndarray Q) (d_loss : option (Q * Q)) :
  emits true (seed_zero self data) (fun _ => True)
    (for_local (py_range (n_critic self))
       (fun _ _ => bind (critic_iteration self data valid fake)
                     (fun d => ret (Some d))) d_loss).
Proof.
  apply emits_for_local. intros _ _.
  eapply emits_bind; [apply emits_critic_iteration|].
  intros; apply emits_ret; exact I.
Qed.

Lemma emits_train self data (train_arguments : string * Z * Z) :
  emits false (run_event self data) (fun _ => True) (train self data train_arguments).
Proof.
  destruct train_arguments as [[cache_prefix epochs] sample_interval]. unfold train.
  eapply emits_bind; [apply emits_lift; intros; exact I|]. intros ones _.
  eapply emits_bind; [apply emits_lift; intros; exact I|]. intros fake _.
  eapply emits_bind; [|intros; apply emits_ret; exact I].
  apply emits_for_local. intros epoch d_loss. unfold epoch_body.
  eapply emits_bind.
  { eapply emits_weaken; [|apply emits_critic_loop]. intros ev Hev. left. exact Hev. }
  intros d_loss' _.
  eapply emits_bind; [apply emits_with_tf|]. intros noise _.
  eapply emits_bind; [apply emits_emit; left; exact I|]. intros _ _.
  eapply emits_bind; [apply emits_with_tf|]. intros g_loss _.
  eapply emits_bind.
  { instantiate (1 := fun _ => True).
    destruct d_loss'; [apply emits_ret; exact I|apply emits_raise]. }
  intros d _.
  eapply emits_bind; [apply emits_emit; left; exact I|]. intros _ _.
  eapply emits_bind; [apply emits_lift; intros; exact I|]. intros r _.
  eapply (emits_bind _ _ (fun _ => True)); [|intros; apply emits_ret; exact I].
  destruct (r =? 0); [|apply emits_ret; exact I].
  apply emits_checkpoint; intros; right; reflexivity.
Qed.

End ControllerProperties.

Section CheckpointTrace.
Context {RNG : NumpyRandom} {TF : TensorEngine}.
Implicit Types (w : World) (self : WGAN) (data : DataFrame Q).

Lemma bind_Ok {S X Y} (m : Py S X) (k : X -> Py S Y) (s s' : S) (b : Y) :
  bind m k s = (Ok b, s') ->
  exists a s1, m s = (Ok a, s1) /\ k a s1 = (Ok b, s').
Proof.
  unfold bind. destruct (m s) as [[a|e] s1]; [|discriminate].
  intros Hk. exists a, s1. split; [reflexivity|exact Hk].
Qed.

(** Split a successful [bind] in hypothesis [H] into its first step, named
    [Ha], and the rest, left in [H]. *)
Ltac peel H a w Ha := apply bind_Ok in H as (a & w & Ha & H).

Lemma checkpoint_events_app (l1 l2 : list (event tensor)) :
  checkpoint_events (l1 ++ l2) = checkpoint_events l1 ++ checkpoint_events l2.
Proof.
  induction l1 as [|ev l1 IH]; [reflexivity|]. cbn.
  destruct (is_checkpoint_event ev); cbn; rewrite IH; reflexivity.
Qed.

Lemma checkpoint_events_none (P : event tensor -> Prop) (l : list (event tensor)) :
  (forall ev, P ev -> is_checkpoint_event ev = false) ->
  Forall P l -> checkpoint_events l = [].
Proof.
  intros HP Hl. induction Hl as [|ev l Hev _ IH]; [reflexivity|].
  cbn. rewrite (HP ev Hev). exact IH.
Qed.

Lemma seed_zero_not_checkpoint self data (ev : event tensor) :
  seed_zero self data ev -> is_checkpoint_event ev = false.
Proof. destruct ev; cbn; try reflexivity; intros []. Qed.

(** The present directory and the file system events are the same in both
    worlds. *)
Definition same_files w w1 : Prop :=
  fs w1 = fs w /\ checkpoint_events (log w1) = checkpoint_events (log w).

Lemma same_files_trans w w1 w2 : same_files w w1 -> same_files w1 w2 -> same_files w w2.
Proof. intros [H1 H2] [H3 H4]. split; congruence. Qed.

(** A step that keeps the file system and logs no file system event. *)
Lemma quiet_step {X} (P : event tensor -> Prop) (Q : X -> Prop) (m : Py World X)
    w (r : result X) w1 :
  (forall ev, P ev -> is_checkpoint_event ev = false) ->
  emits true P Q m -> m w = (r, w1) -> same_files w w1.
Proof.
  intros HP Hm Hrun. destruct (Hm w) as (Hfs & (new & Hlog & Hnew) & _).
  rewrite Hrun in Hfs, Hlog. cbn in Hfs, Hlog. split; [exact (Hfs eq_refl)|].
  rewrite Hlog, checkpoint_events_app, (checkpoint_events_none P new HP Hnew).
  reflexivity.
Qed.

Lemma insert_keeps_Some {V} (m : gmap string V) (k k' : string) (v : V) :
  is_Some (m !! k) -> is_Some (<[k' := v]> m !! k).
Proof.
  intros Hk. destruct (decide (k' = k)) as [->|Hne].
  - rewrite lookup_insert_eq. eexists; reflexivity.
  - rewrite lookup_insert_ne by exact Hne. exact Hk.
Qed.

(** The checkpoint block, for a prefix without braces. *)
Lemma checkpoint_run (cache_prefix : string) (epoch : Z) w w' :
  brace_free cache_prefix = true ->
  checkpoint cache_prefix epoch w = (Ok tt, w') ->
  checkpoint_events (log w') =
    reverse ((if bool_decide (is_Some (fs w !! "./cache"%string)) then []
              else [Mkdir "./cache"])
             ++ [ Saved "generator" (spec_checkpoint_name cache_prefix "generator" epoch);
                  Saved "critic" (spec_checkpoint_name cache_prefix "critic" epoch) ])
    ++ checkpoint_events (log w)
  /\ is_Some (fs w' !! "./cache"%string).
Proof.
  intros Hb. unfold checkpoint, os_mkdir, save_weights, path_exists.
  rewrite !checkpoint_name_brace_free by exact Hb.
  unfold bind, lift, ret, emit, modify.
  destruct (bool_decide (is_Some (fs w !! "./cache"%string))) eqn:Hp;
    cbn; intros [= <-]; cbn.
  - split; [reflexivity|].
    apply bool_decide_eq_true_1 in Hp. do 2 apply insert_keeps_Some. exact Hp.
  - split; [reflexivity|].
    do 2 apply insert_keeps_Some. rewrite lookup_insert_eq. eexists; reflexivity.
Qed.

(** One epoch that completes, for a prefix without braces. *)
Lemma epoch_body_checkpoints self data (cache_prefix : string) (sample_interval : Z)
    (valid fake : ndarray Q) (epoch : Z) (d_loss d_loss' : option (Q * Q)) w w' :
  brace_free cache_prefix = true ->
  epoch_body self data cache_prefix sample_interval valid fake epoch d_loss w
    = (Ok d_loss', w') ->
  let present := bool_decide (is_Some (fs w !! "./cache"%string)) in
  checkpoint_events (log w') =
    reverse (expected_checkpoints cache_prefix sample_interval present [epoch])
    ++ checkpoint_events (log w)
  /\ bool_decide (is_Some (fs w' !! "./cache"%string))
     = present || (epoch mod sample_interval =? 0).
Proof.
  intros Hb Hrun present. unfold epoch_body in Hrun.
  peel Hrun d1 w1 H1. peel Hrun noise w2 H2. peel Hrun u3 w3 H3.
  peel Hrun g_loss w4 H4. peel Hrun d w5 H5. peel Hrun u6 w6 H6.
  peel Hrun r w7 H7. peel Hrun u8 w8 H8.
  injection Hrun as _ <-.
  assert (Hq : same_files w w7).
  { pose proof (seed_zero_not_checkpoint self data) as HP.
    eapply same_files_trans;
      [eapply (quiet_step _ _ _ _ _ _ HP); [|exact H1]; apply emits_critic_loop|].
    eapply same_files_trans;
      [eapply (quiet_step _ _ _ _ _ _ HP); [|exact H2]; apply emits_with_tf|].
    eapply same_files_trans;
      [eapply (quiet_step _ _ _ _ _ _ HP); [|exact H3]; apply emits_emit; exact I|].
    eapply same_files_trans;
      [eapply (quiet_step _ _ _ _ _ _ HP); [|exact H4]; apply emits_with_tf|].
    eapply same_files_trans;
      [eapply (quiet_step _ (fun _ => True) _ _ _ _ HP); [|exact H5];
       destruct d1; [apply emits_ret; exact I|apply emits_raise]|].
    eapply same_files_trans;
      [eapply (quiet_step _ _ _ _ _ _ HP); [|exact H6]; apply emits_emit; exact I|].
    eapply (quiet_step _ (fun _ => True) _ _ _ _ HP); [|exact H7].
    apply emits_lift; intros; exact I. }
  destruct Hq as [Hfs Hlog].
  assert (Hr : r = epoch mod sample_interval).
  { unfold lift, py_mod in H7. destruct (sample_interval =? 0); [discriminate|].
    injection H7 as <- _. reflexivity. }
  subst r. cbn [expected_checkpoints].
  assert (Hpres : bool_decide (is_Some (fs w7 !! "./cache"%string)) = present)
    by (unfold present; rewrite Hfs; reflexivity).
  destruct (epoch mod sample_interval =? 0).
  - destruct u8. apply checkpoint_run in H8 as [Hev Hsome]; [|exact Hb].
    rewrite Hpres, Hlog in Hev. split.
    + rewrite Hev, app_nil_r. reflexivity.
    + rewrite orb_true_r. apply bool_decide_eq_true_2. exact Hsome.
  - injection H8 as _ <-. split.
    + rewrite Hlog. reflexivity.
    + rewrite orb_false_r. exact Hpres.
Qed.

Lemma epochs_checkpoints self data (cache_prefix : string) (sample_interval : Z)
    (valid fake : ndarray Q) (epochs : list Z) (d_loss d_loss' : option (Q * Q)) w w' :
  brace_free cache_prefix = true ->
  for_local epochs (epoch_body self data cache_prefix sample_interval valid fake)
    d_loss w = (Ok d_loss', w') ->
  checkpoint_events (log w') =
    reverse (expected_checkpoints cache_prefix sample_interval
               (bool_decide (is_Some (fs w !! "./cache"%string))) epochs)
    ++ checkpoint_events (log w).
Proof.
  intros Hb. revert d_loss w.
  induction epochs as [|epoch epochs IH]; intros d_loss w Hrun.
  - injection Hrun as _ <-. reflexivity.
  - cbn [for_local] in Hrun. peel Hrun d1 w1 H1.
    apply epoch_body_checkpoints in H1 as [Hev Hpres]; [|exact Hb].
    apply IH in Hrun. rewrite Hrun, Hev, Hpres. cbn [expected_checkpoints].
    destruct (epoch mod sample_interval =? 0).
    + rewrite orb_true_r. cbn [app].
      destruct (bool_decide (is_Some (fs w !! "./cache"%string))); cbn [app];
        rewrite ?reverse_cons, ?reverse_nil; cbn [app];
        rewrite <- ?(assoc_L (++)); reflexivity.
    + rewrite orb_false_r. cbn [reverse app]. reflexivity.
Qed.

(** A training run that completes, for a prefix without braces: the file
    system events it adds are the prescribed ones, in their order. *)
Lemma train_checkpoints self data (cache_prefix : string) (epochs sample_interval : Z)
    w w' :
  brace_free cache_prefix = true ->
  train self data (cache_prefix, epochs, sample_interval) w = (Ok tt, w') ->
  checkpoint_events (log w') =
    reverse (expected_checkpoints cache_prefix sample_interval
               (bool_decide (is_Some (fs w !! "./cache"%string))) (py_range epochs))
    ++ checkpoint_events (log w).
Proof.
  intros Hb Hrun. unfold train in Hrun.
  peel Hrun ones w1 H1. peel Hrun fake w2 H2. peel Hrun d w3 H3.
  injection Hrun as <-. injection H1 as _ <-. injection H2 as _ <-.
  eapply epochs_checkpoints; [exact Hb|exact H3].
Qed.

End CheckpointTrace.

Section ControllerClaims.
Context {RNG : NumpyRandom} {TF : TensorEngine}.
Implicit Types (w : World) (self : WGAN) (data : DataFrame Q).

(** C4. Every sampler call of a training run passes the controller's batch
    size and the step counter 0, so every real batch a critic step is
    trained on is the sampler's outcome at step 0, whatever the state of
    the generator; for a batch size between 1 and the number of rows that
    batch holds the rows at the first [batch_size] positions of the
    permutation drawn from seed 0. *)
Theorem train_samples_one_batch self data (train_arguments : string * Z * Z) w :
  exists new,
    log (train self data train_arguments w).2 = new ++ log w
    /\ (forall b s, SamplerCalled b s ∈ new -> b = batch_size self /\ s = 0)
    /\ (forall x y g, CriticTrained (RealBatch x) y ∈ new ->
          (get_data_batch data (batch_size self) 0 g).1 = Ok x)
    /\ (rectangular data -> NoDup (df_index data) ->
        0 < batch_size self <= df_len data ->
        forall g,
          (get_data_batch data (batch_size self) 0 g).1 =
            Ok {| shape := (batch_size self, Z.of_nat (df_columns data));
                  flat := concat (snd <$>
                    (take (Z.to_nat (batch_size self))
                          (shuffled (df_index data) (mt_seed 0))
                     ≫= fun l => filter (fun r => r.1 = l) (df_rows data))) |}).
Proof.
  destruct (emits_train self data train_arguments w) as (_ & (new & Hlog & Hnew) & _).
  exists new. split; [exact Hlog|]. rewrite Forall_forall in Hnew.
  split; [|split].
  - intros b s Hin. destruct (Hnew _ Hin) as [Hev|Hev]; [exact Hev|discriminate].
  - intros x y g Hin. destruct (Hnew _ Hin) as [Hev|Hev]; [exact (Hev g)|discriminate].
  - intros Hrect Hnd Hbs g.
    pose proof (get_data_batch_ok data (batch_size self) 0 g Hrect Hnd) as Hok.
    rewrite Z.mul_0_r, Zdiv_0_l, Zmod_0_l in Hok. cbn zeta in Hok.
    rewrite Hok; [|lia|lia|split; [lia|reflexivity]|lia].
    change (Z.to_nat 0) with 0%nat. rewrite drop_0.
    rewrite take_app_le; [reflexivity|]. rewrite length_shuffled.
    pose proof (length_df_index data). lia.
Qed.

(** C10, as the code has it. With [n_critic < 1], at least one epoch and a
    batch size that is not negative, the run performs the generator step
    of epoch 0 and then stops with an unbound-variable error, having drawn
    no batch and printed nothing; a run that returns normally has
    [n_critic >= 1] or no epoch at all. *)
Theorem train_without_critic_steps self data (cache_prefix : string)
    (epochs sample_interval : Z) w :
  (n_critic self < 1 -> 0 < epochs -> 0 <= batch_size self ->
   exists ones,
     np_ones (batch_size self) = Ok ones
     /\ (train self data (cache_prefix, epochs, sample_interval) w).1
        = Raise UnboundLocalError
     /\ log (train self data (cache_prefix, epochs, sample_interval) w).2
        = GeneratorTrained (np_neg ones) :: log w)
  /\ ((train self data (cache_prefix, epochs, sample_interval) w).1 = Ok tt ->
      1 <= n_critic self \/ epochs <= 0).
Proof.
  assert (Hmain : n_critic self < 1 -> 0 < epochs -> 0 <= batch_size self ->
    exists ones,
      np_ones (batch_size self) = Ok ones
      /\ (train self data (cache_prefix, epochs, sample_interval) w).1
         = Raise UnboundLocalError
      /\ log (train self data (cache_prefix, epochs, sample_interval) w).2
         = GeneratorTrained (np_neg ones) :: log w).
  { intros Hn He Hb. unfold train, np_ones.
    destruct (Z.ltb_spec (batch_size self) 0) as [?|_]; [lia|].
    eexists. split; [reflexivity|].
    rewrite (py_range_pos epochs He). unfold bind at 1 2 3. cbn [lift for_local].
    unfold epoch_body. rewrite (py_range_nonpos (n_critic self) Hn). cbn [for_local].
    unfold bind, ret, with_tf, emit, modify, raise. cbn.
    destruct (tf_random_normal (batch_size self, noise_dim self) (tf w)) as [noise e1].
    cbn. destruct (model_train_on_batch noise _ e1) as [g_loss e2]. cbn.
    split; reflexivity. }
  split; [exact Hmain|].
  intros Hok. destruct (Z.le_gt_cases 1 (n_critic self)) as [?|Hn]; [left; assumption|].
  destruct (Z.le_gt_cases epochs 0) as [?|He]; [right; assumption|].
  exfalso. destruct (Z.le_gt_cases 0 (batch_size self)) as [Hb|Hb].
  - destruct (Hmain ltac:(lia) ltac:(lia) Hb) as (valid & _ & Hr & _). congruence.
  - revert Hok. unfold train, np_ones, bind, lift.
    destruct (Z.ltb_spec (batch_size self) 0) as [_|?]; [discriminate|lia].
Qed.

(** [load] on a path that is not an existing directory. *)
Lemma load_not_directory self (p : string) w :
  fs w !! p <> Some Directory -> load self p w = (Raise AssertionError, (self, w)).
Proof.
  intros Hp. unfold load, os_path_isdir.
  destruct (fs w !! p) as [[|f]|]; try reflexivity. congruence.
Qed.

(** C6. On an existing directory [load] neither restores nor returns a
    generator. The assertion passes and [self.generator] is bound to a
    fresh [Generator]; [load_weights] is then called on that object, whose
    base initialiser never ran, and raises [AttributeError]. [load] ends
    with this error: nothing is returned, no world state has changed, and
    [self.generator] is left bound to the fresh, unrestored [Generator]
    in place of the model the controller had. *)
Theorem load_on_directory_raises self (p : string) w :
  fs w !! p = Some Directory ->
  load self p w
  = (Raise AttributeError,
     (set_generator self (Generator_init (batch_size self)), w))
  /\ generator (load self p w).2.1 = PyGenerator (batch_size self)
  /\ forall returned, (load self p w).1 <> Ok returned.
Proof.
  intros Hp. unfold load, os_path_isdir. rewrite Hp. cbn.
  split; [reflexivity|]. split; [reflexivity|]. discriminate.
Qed.

End ControllerClaims.

(** ** The claims on the end-to-end scenario *)

Lemma demo_dataset_rectangular : rectangular Demo.dataset.
Proof. unfold rectangular. repeat constructor. Qed.

Lemma demo_dataset_NoDup : NoDup (df_index Demo.dataset).
Proof. apply (bool_decide_unpack _). vm_compute. exact I. Qed.

Lemma train_samples_one_batch_witness :
  (get_data_batch (RNG := Demo.rng) Demo.dataset 4 0 11).1 =
    Ok {| shape := (4, 3);
          flat := [0; 0; 1; 1; 0; 1; 2; 0; 1; 3; 0; 1]%Q |}.
Proof.
  destruct (train_samples_one_batch (RNG := Demo.rng) (TF := Demo.tensors)
              (Demo.self 2) Demo.dataset ("run"%string, 1, 1) Demo.world)
    as (new & _ & _ & _ & Hbatch).
  rewrite (Hbatch demo_dataset_rectangular demo_dataset_NoDup); [reflexivity|].
  vm_compute. split; [reflexivity|discriminate].
Defined.

Lemma train_without_critic_steps_witness :
  (train (RNG := Demo.rng) (TF := Demo.tensors)
     (Demo.self 0) Demo.dataset ("run"%string, 1, 1) Demo.world).1
  = Raise UnboundLocalError.
Proof.
  destruct (proj1 (train_without_critic_steps (RNG := Demo.rng) (TF := Demo.tensors)
                     (Demo.self 0) Demo.dataset "run"%string 1 1 Demo.world))
    as (ones & _ & Hr & _).
  - vm_compute. reflexivity.
  - reflexivity.
  - vm_compute. discriminate.
  - exact Hr.
Defined.

(** C10 fails as stated: with [n_critic = 0] and no epoch to run, the
    training run returns normally. *)
Lemma train_no_epoch_returns :
  n_critic (Demo.self 0) < 1
  /\ (train (RNG := Demo.rng) (TF := Demo.tensors)
        (Demo.self 0) Demo.dataset ("run"%string, 0, 1) Demo.world).1 = Ok tt.
Proof. split; reflexivity. Qed.

Lemma load_on_directory_raises_witness :
  load (RNG := Demo.rng) (TF := Demo.tensors) (Demo.self 2) "./cache" Demo.cache_world
  = (Raise AttributeError,
     (set_generator (Demo.self 2) (PyGenerator 4), Demo.cache_world)).
Proof.
  refine (proj1 (load_on_directory_raises (RNG := Demo.rng) (TF := Demo.tensors)
                   (Demo.self 2) "./cache" Demo.cache_world _)).
  vm_compute. reflexivity.
Defined.

(** C8. The checkpoint names are not the prescribed ones when the prefix
    holds braces, because the prefix is part of the template that [format]
    interprets. With the prefix [{{a}}] the run of the end-to-end scenario
    completes and writes [./cache/{a}_generator_model_weights_step_0.h5]
    and the critic's file of the same form, and no file under the
    prescribed names; with the prefix [{}] the run stops with an
    [IndexError] after creating the directory and writes no checkpoint. *)
Theorem train_braced_prefix :
  let run prefix :=
    train (RNG := Demo.rng) (TF := Demo.tensors)
      (Demo.self 2) Demo.dataset (prefix, 1, 1) Demo.world in
  ((run "{{a}}"%string).1 = Ok tt
   /\ is_Some (fs (run "{{a}}"%string).2
                 !! "./cache/{a}_generator_model_weights_step_0.h5"%string)
   /\ is_Some (fs (run "{{a}}"%string).2
                 !! "./cache/{a}_critic_model_weights_step_0.h5"%string)
   /\ fs (run "{{a}}"%string).2
        !! spec_checkpoint_name "{{a}}" "generator" 0 = None
   /\ fs (run "{{a}}"%string).2
        !! spec_checkpoint_name "{{a}}" "critic" 0 = None)
  /\ ((run "{}"%string).1 = Raise IndexError
      /\ dom (fs (run "{}"%string).2) = {[ "./cache"%string ]}).
Proof.
  intros run. split.
  - split; [reflexivity|]. split; [eexists; vm_compute; reflexivity|].
    split; [eexists; vm_compute; reflexivity|].
    split; vm_compute; reflexivity.
  - split; [reflexivity|]. apply set_eq. intros p.
    rewrite elem_of_dom, elem_of_singleton.
    assert (Hfs : fs (run "{}"%string).2 = {[ "./cache"%string := Directory ]})
      by (vm_compute; reflexivity).
    rewrite Hfs. split.
    + intros [f Hf]. apply lookup_singleton_Some in Hf as [-> _]. reflexivity.
    + intros ->. eexists. apply lookup_singleton_eq.
Qed.

(** * Further properties of the code *)

(** ** The batch sampler: errors, windows and side effects *)

Lemma py_slice_elem_of {A} (l : list A) (a b : Z) (x : A) :
  x ∈ py_slice l a b -> x ∈ l.
Proof.
  unfold py_slice. intros Hx.
  apply elem_of_take in Hx as (i & Hi & _). rewrite lookup_drop in Hi.
  eapply list_elem_of_lookup_2. exact Hi.
Qed.

Lemma loc_rows_elem_of {A} (rows : list (Z * list A)) (labels : list Z)
    (hit : list (Z * list A)) (r : Z * list A) :
  loc_rows rows labels = Ok hit -> r ∈ hit -> r ∈ rows.
Proof.
  revert hit. induction labels as [|l ls IH]; intros hit Hloc Hr; cbn in Hloc.
  - injection Hloc as <-. inversion Hr.
  - destruct (filter (fun r0 : Z * list A => r0.1 = l) rows) as [|h t] eqn:Hf;
      [discriminate|].
    destruct (loc_rows rows ls) as [rest|e]; [|discriminate].
    injection Hloc as <-.
    assert (Hr' : r ∈ (h :: t) ++ rest) by exact Hr. clear Hr.
    rewrite <- Hf in Hr'. apply elem_of_app in Hr' as [Hr|Hr].
    + apply list_elem_of_filter in Hr as [_ Hr]. exact Hr.
    + eapply IH; [reflexivity|exact Hr].
Qed.

Section SamplerFurther.
Context {RNG : NumpyRandom} {A : Type}.
Implicit Types (train : DataFrame A) (g : rng_state).

(** Labels that come out of the shuffled, duplicated index are labels of
    the frame, so [loc] finds them. *)
Lemma df_loc_slice_ok train (s a b : Z) :
  df_loc train (py_slice (shuffled (df_index train) (mt_seed s)
                          ++ shuffled (df_index train) (mt_seed s)) a b)
  = Ok {| df_columns := df_columns train;
          df_rows := py_slice (shuffled (df_index train) (mt_seed s)
                               ++ shuffled (df_index train) (mt_seed s)) a b
                     ≫= fun l => filter (fun r => r.1 = l) (df_rows train) |}.
Proof.
  unfold df_loc. rewrite loc_rows_ok; [reflexivity|].
  intros l Hl. apply py_slice_elem_of, elem_of_app in Hl.
  assert (Hp : l ∈ shuffled (df_index train) (mt_seed s)) by tauto.
  rewrite shuffled_Permutation in Hp. exact Hp.
Qed.

(** X1. When the slice stays inside the duplicated index list
    ([start_i + batch_size <= 2 * len(train)]), on a rectangular frame with
    unique labels, the sampler returns a matrix of shape
    [(batch_size, columns)] that holds, in order, the rows labelled by the
    window [start_i .. stop_i - 1] of the duplicated permutation. *)
Theorem get_data_batch_window train (bs seed : Z) g :
  rectangular train -> NoDup (df_index train) ->
  0 < df_len train -> 0 < bs ->
  0 <= bs * seed / df_len train < 2 ^ 32 ->
  bs * seed mod df_len train + bs <= 2 * df_len train ->
  let p := shuffled (df_index train) (mt_seed (bs * seed / df_len train)) in
  let ix := take (Z.to_nat bs) (drop (Z.to_nat (bs * seed mod df_len train)) (p ++ p)) in
  (get_data_batch train bs seed g).1 =
    Ok {| shape := (bs, Z.of_nat (df_columns train));
          flat := concat (snd <$> (ix ≫= fun l => filter (fun r => r.1 = l) (df_rows train))) |}.
Proof. apply get_data_batch_ok. Qed.

Lemma get_data_batch_no_rows train (bs seed : Z) g :
  df_rows train = [] ->
  get_data_batch train bs seed g = (Raise ZeroDivisionError, g).
Proof.
  intros Hrows. unfold get_data_batch, batch_labels, bind, lift, py_mod, df_len.
  rewrite Hrows. reflexivity.
Qed.

(** X2. On a frame without rows the sampler raises [ZeroDivisionError],
    whatever the batch size and the seed, and leaves the process-wide
    generator as it was. *)
Theorem get_data_batch_empty train (bs seed : Z) g :
  df_rows train = [] ->
  get_data_batch train bs seed g = (Raise ZeroDivisionError, g).
Proof. apply get_data_batch_no_rows. Qed.

(** X3. On a frame with at least one row, a batch size that is zero or
    negative always ends in a [ValueError]. *)
Theorem get_data_batch_nonpositive_batch train (bs seed : Z) g :
  0 < df_len train -> bs <= 0 ->
  (get_data_batch train bs seed g).1 = Raise ValueError.
Proof.
  intros Hn Hbs.
  unfold get_data_batch, batch_labels, bind, lift, ret, py_mod, py_floordiv, np_random_seed.
  destruct (Z.eqb_spec (df_len train) 0) as [?|_]; [lia|].
  destruct ((0 <=? bs * seed / df_len train) && (bs * seed / df_len train <? 2 ^ 32));
    [|reflexivity].
  rewrite np_random_choice_eq, df_loc_slice_ok. unfold np_reshape.
  destruct (Z.leb_spec bs 0); [reflexivity|lia].
Qed.

(** X4. On a frame with at least one row, a shuffle seed
    [batch_size * seed // len(train)] outside [0, 2**32 - 1] makes the
    sampler raise [ValueError] and leave the generator as it was; a
    negative step seed with a positive batch size is such a case. *)
Theorem get_data_batch_seed_rejected train (bs seed : Z) g :
  0 < df_len train ->
  bs * seed / df_len train < 0 \/ 2 ^ 32 <= bs * seed / df_len train
  \/ (0 < bs /\ seed < 0) ->
  get_data_batch train bs seed g = (Raise ValueError, g).
Proof.
  intros Hn Hs.
  assert (Hout : bs * seed / df_len train < 0 \/ 2 ^ 32 <= bs * seed / df_len train).
  { destruct Hs as [?|[?|[Hb Hneg]]]; [left; assumption|right; assumption|left].
    apply Z.div_lt_upper_bound; [exact Hn|]. nia. }
  unfold get_data_batch, batch_labels, bind, lift, ret, py_mod, py_floordiv, np_random_seed.
  destruct (Z.eqb_spec (df_len train) 0) as [?|_]; [lia|].
  destruct (Z.leb_spec 0 (bs * seed / df_len train)),
           (Z.ltb_spec (bs * seed / df_len train) (2 ^ 32));
    cbn [andb]; try reflexivity. lia.
Qed.

(** X7. Once the shuffle seed is accepted, the call leaves the
    process-wide generator in the state that follows the permutation drawn
    from that seed: whatever state the generator was in before is lost,
    also when the call itself ends in an error. *)
Theorem get_data_batch_clobbers_generator train (bs seed : Z) g :
  0 < df_len train ->
  0 <= bs * seed / df_len train < 2 ^ 32 ->
  (get_data_batch train bs seed g).2
  = (mt_permutation (mt_seed (bs * seed / df_len train))
                    (length (df_index train))).2.
Proof.
  intros Hn Hs.
  unfold get_data_batch, batch_labels, bind, lift, ret, py_mod, py_floordiv, np_random_seed.
  destruct (Z.eqb_spec (df_len train) 0) as [?|_]; [lia|].
  destruct (Z.leb_spec 0 (bs * seed / df_len train)); [|lia].
  destruct (Z.ltb_spec (bs * seed / df_len train) (2 ^ 32)); [|lia].
  cbn [andb]. rewrite np_random_choice_eq, df_loc_slice_ok.
  destruct (np_reshape _ bs); reflexivity.
Qed.

(** X8. Whenever the sampler returns a matrix, its first dimension is the
    batch size and its elements are, in order, those of rows of the frame:
    it never returns data that is not in the data set. *)
Theorem get_data_batch_rows_of_frame train (bs seed : Z) g (x : ndarray A) :
  (get_data_batch train bs seed g).1 = Ok x ->
  (shape x).1 = bs
  /\ exists rows, flat x = concat (snd <$> rows)
                  /\ forall r, r ∈ rows -> r ∈ df_rows train.
Proof.
  unfold get_data_batch, bind, lift.
  destruct (batch_labels train bs seed g) as [[ix|e] g']; [|discriminate].
  unfold df_loc. destruct (loc_rows (df_rows train) ix) as [hit|e] eqn:Hloc; [|discriminate].
  unfold np_reshape, df_values. cbn [shape flat df_rows df_columns df_len fst snd].
  destruct (bs <=? 0); [discriminate|].
  destruct (_ mod bs =? 0); [|discriminate].
  intros [= <-]. cbn. split; [reflexivity|].
  exists hit. split; [reflexivity|]. intros r Hr. eapply loc_rows_elem_of; eassumption.
Qed.

End SamplerFurther.

Section SamplerWindows.
Context {RNG : NumpyRandom} {A : Type}.
Implicit Types (train : DataFrame A) (g : rng_state).



(** X6. A window that runs past the end of the data set wraps around
    inside the same permutation: the batch labels are the tail of the
    permutation from [start_i] followed by its first
    [start_i + batch_size - len(train)] entries. *)
Theorem batch_labels_wrap train (bs seed : Z) g :
  0 < df_len train -> 0 < bs ->
  0 <= bs * seed / df_len train < 2 ^ 32 ->
  df_len train < bs * seed mod df_len train + bs <= 2 * df_len train ->
  let p := shuffled (df_index train) (mt_seed (bs * seed / df_len train)) in
  let start_i := bs * seed mod df_len train in
  (batch_labels train bs seed g).1 =
    Ok (drop (Z.to_nat start_i) p
        ++ take (Z.to_nat (start_i + bs - df_len train)) p).
Proof.
  intros Hn Hbs Hs Hwrap p start_i.
  rewrite batch_labels_eq by assumption. cbn zeta. fold p start_i.
  pose proof (Z.mod_pos_bound (bs * seed) (df_len train) Hn) as Hm. fold start_i in Hm, Hwrap.
  assert (Hlen : Z.of_nat (length p) = df_len train).
  { unfold p. rewrite length_shuffled. apply length_df_index. }
  rewrite py_slice_inside by (rewrite ?length_app; lia).
  replace (start_i + bs - start_i) with bs by lia.
  rewrite drop_app_le by lia. rewrite take_app, length_drop.
  rewrite take_ge by (rewrite length_drop; lia).
  do 3 f_equal. lia.
Qed.

End SamplerWindows.

(** ** The weight clipper for any non-negative bound *)

Lemma backend_clip_inside (x c : Q) :
  (- c <= x)%Q -> (x <= c)%Q -> backend_clip x (- c) c = x.
Proof.
  intros Hlo Hhi. unfold backend_clip.
  assert (Hle : (- c <= c)%Q) by (eapply Qle_trans; eassumption).
  apply Qle_bool_iff in Hle as Hb. rewrite Hb.
  unfold Qmax, Qmin, GenericMinMax.gmax, GenericMinMax.gmin.
  destruct (Qcompare_spec x c) as [Heq|Hlt|Hgt].
  - destruct (Qcompare_spec x (- c)) as [_|Hlt'|_]; try reflexivity.
    exfalso. apply (Qlt_not_le _ _ Hlt'), Hlo.
  - destruct (Qcompare_spec x (- c)) as [_|Hlt'|_]; try reflexivity.
    exfalso. apply (Qlt_not_le _ _ Hlt'), Hlo.
  - exfalso. apply (Qlt_not_le _ _ Hgt), Hhi.
Qed.

(** X9. For every clip value [c >= 0], the constraint keeps the number of
    weights, puts every weight into [-c, c], returns weights that already
    lie in [-c, c] unchanged, and is therefore idempotent. *)
Theorem ClipConstraint_call_projection (self : ClipConstraint) (ws : list Q) :
  (0 <= clip_value self)%Q ->
  length (ClipConstraint_call self ws) = length ws
  /\ within (clip_value self) (ClipConstraint_call self ws)
  /\ (within (clip_value self) ws -> ClipConstraint_call self ws = ws)
  /\ ClipConstraint_call self (ClipConstraint_call self ws)
     = ClipConstraint_call self ws.
Proof.
  intros Hc.
  assert (Hfix : forall l, within (clip_value self) l -> ClipConstraint_call self l = l).
  { intros l Hl. unfold ClipConstraint_call. induction Hl as [|w l [Hlo Hhi] _ IH];
      [reflexivity|]. cbn. rewrite IH, backend_clip_inside by assumption. reflexivity. }
  split; [apply length_fmap|].
  split; [apply ClipConstraint_call_within, Hc|].
  split; [apply Hfix|]. apply Hfix, ClipConstraint_call_within, Hc.
Qed.

Lemma ClipConstraint_call_projection_witness :
  ClipConstraint_call {| clip_value := 1 # 100 |} [(1 # 2)%Q; (-3)%Q; (1 # 200)%Q]
  = [(1 # 100)%Q; (- (1 # 100))%Q; (1 # 200)%Q]
  /\ within (1 # 100)
       (ClipConstraint_call {| clip_value := 1 # 100 |} [(1 # 2)%Q; (-3)%Q; (1 # 200)%Q]).
Proof.
  split; [reflexivity|].
  apply (ClipConstraint_call_projection {| clip_value := 1 # 100 |}). discriminate.
Defined.

(** ** The loss: shapes and signs *)

(** Label and prediction tensors of different lengths, neither of length
    one, cannot be multiplied: the loss ends in a shape error. *)
Theorem wasserstein_loss_shape_error (y_true y_pred : list Q) :
  length y_true <> length y_pred ->
  length y_true <> 1%nat -> length y_pred <> 1%nat ->
  wasserstein_loss y_true y_pred = Raise ValueError.
Proof.
  intros Hne Ht Hp. unfold wasserstein_loss, tf_multiply.
  rewrite decide_False by exact Hne.
  destruct y_true as [|t [|t' ts]], y_pred as [|q [|q' qs]]; cbn in *;
    try reflexivity; congruence.
Qed.

Lemma Qsum_negated (y p : list Q) :
  (Qsum (zip_with Qmult (Qopp <$> y) p) == - Qsum (zip_with Qmult y p))%Q.
Proof.
  revert p. induction y as [|t y IH]; intros [|q p]; cbn; try reflexivity.
  unfold Qsum in IH. rewrite IH. ring.
Qed.

Lemma Qsum_swapped (y p : list Q) :
  (Qsum (zip_with Qmult y p) == Qsum (zip_with Qmult p y))%Q.
Proof.
  revert p. induction y as [|t y IH]; intros [|q p]; cbn; try reflexivity.
  unfold Qsum in IH. rewrite IH. ring.
Qed.

(** X11. For tensors of the same length, negating every label negates the
    loss, and the loss does not change when labels and predictions are
    exchanged. *)
Theorem wasserstein_loss_signs (y_true y_pred : list Q) :
  length y_true = length y_pred ->
  result_loss_eq (wasserstein_loss (Qopp <$> y_true) y_pred)
                 (Ok (Qopp <$> K_mean (zip_with Qmult y_true y_pred)))
  /\ result_loss_eq (wasserstein_loss y_true y_pred)
                    (wasserstein_loss y_pred y_true).
Proof.
  intros Hl. unfold wasserstein_loss.
  rewrite !tf_multiply_same_length by (rewrite ?length_fmap; congruence).
  cbn [result_loss_eq]. unfold K_mean.
  pose proof (Qsum_negated y_true y_pred) as Hneg.
  pose proof (Qsum_swapped y_true y_pred) as Hswap.
  destruct y_true as [|t ts], y_pred as [|q qs]; try discriminate; [split; exact I|].
  cbn [fmap list_fmap zip_with option_fmap option_map loss_eq length] in *.
  rewrite !length_zip_with, !length_fmap. injection Hl as Hl. rewrite Hl, Nat.min_id.
  split.
  - rewrite Hneg. unfold Qdiv. ring.
  - rewrite Hswap. reflexivity.
Qed.

Lemma wasserstein_loss_signs_witness :
  result_loss_eq (wasserstein_loss [2%Q; (-1)%Q] [(1 # 2)%Q; 3%Q])
                 (wasserstein_loss [(1 # 2)%Q; 3%Q] [2%Q; (-1)%Q]).
Proof.
  apply (wasserstein_loss_signs [2%Q; (-1)%Q] [(1 # 2)%Q; 3%Q]). reflexivity.
Defined.

(** ** The builders: widths, variables and parameter counts *)

Lemma generator_meta (bs input_shape dim data_dim : Z) (init : Q) :
  var_meta <$> trainable_weights
    {| model_batch_size := bs; model_input_shape := input_shape;
       model_layers := Generator_layers dim data_dim |} init
  = [ (0%nat, kernel, None); (0%nat, bias, None);
      (1%nat, kernel, None); (1%nat, bias, None);
      (2%nat, kernel, None); (2%nat, bias, None);
      (3%nat, kernel, None); (3%nat, bias, None) ].
Proof. reflexivity. Qed.

Section BuilderFurther.
Context {K : Keras}.

Lemma Generator_build_model_layers (bs input_shape dim data_dim : Z) (g : Model) :
  Generator_build_model bs input_shape dim data_dim = Ok g ->
  g = {| model_batch_size := bs; model_input_shape := input_shape;
         model_layers := Generator_layers dim data_dim |}.
Proof.
  unfold Generator_build_model, functional_model.
  destruct (Input input_shape (Some bs)); [|discriminate].
  destruct (stack (Generator_layers dim data_dim) a); [|discriminate].
  intros [= <-]. reflexivity.
Qed.

(** X21. When [define_gan] succeeds, the two networks fit together: the
    generator takes [noise_dim] inputs and its layer stack ends with
    [data_dim] outputs, the critic takes [data_dim] inputs and its stack
    ends with one output, and both are built for the same batch size. *)
Theorem define_gan_pipeline (bs nd dd ld : Z) (g c : Model) :
  define_gan bs nd dd ld = Ok (g, c) ->
  model_batch_size g = bs /\ model_input_shape g = nd
  /\ stack (model_layers g) (model_input_shape g) = Ok dd
  /\ model_batch_size c = bs /\ model_input_shape c = dd
  /\ stack (model_layers c) (model_input_shape c) = Ok 1.
Proof.
  unfold define_gan, Generator_build_model, Critic_build_model, functional_model, Input.
  destruct (Input_accepts nd (Some bs)); [|discriminate].
  destruct (stack (Generator_layers ld dd) nd) as [wg|e] eqn:Hg; [|discriminate].
  destruct (Input_accepts dd (Some bs)); [|discriminate].
  destruct (stack (Critic_layers ld) dd) as [wc|e] eqn:Hc; [|discriminate].
  destruct (Input_accepts nd None); [|discriminate].
  intros [= <- <-]. cbn [model_batch_size model_input_shape model_layers].
  rewrite Hg, Hc. repeat split.
  - f_equal. revert Hg. unfold Generator_layers, stack, call_layer.
    repeat (destruct (Dense_accepts _); [|discriminate]). intros [= <-]. reflexivity.
  - f_equal. revert Hc. unfold Critic_layers, stack, call_layer.
    repeat (destruct (Dense_accepts _); [|discriminate]). intros [= <-]. reflexivity.
Qed.

(** X22. The generator has eight trainable variables, a kernel and a bias
    for each of its four Dense layers, and none of them is constrained:
    after any sequence of optimizer steps, an update leaves in each of them
    exactly what the optimizer wrote. *)
Theorem generator_weights_unconstrained (bs input_shape dim data_dim : Z) (g : Model)
    (init : Q) (raws : list (variable -> list Q)) (raw : variable -> list Q)
    (v0 : variable) :
  Generator_build_model bs input_shape dim data_dim = Ok g ->
  v0 ∈ foldl (fun vs r => apply_gradients r vs) (trainable_weights g init) raws ->
  length (foldl (fun vs r => apply_gradients r vs) (trainable_weights g init) raws)
    = 8%nat
  /\ var_constraint v0 = None
  /\ var_value (update_variable raw v0) = raw v0.
Proof.
  intros Hb Hin. apply Generator_build_model_layers in Hb. subst g.
  pose proof (updates_meta raws (trainable_weights
                {| model_batch_size := bs; model_input_shape := input_shape;
                   model_layers := Generator_layers dim data_dim |} init)) as Hmeta.
  rewrite generator_meta in Hmeta.
  split; [rewrite <- (length_fmap var_meta), Hmeta; reflexivity|].
  assert (Hm : var_meta v0 ∈ var_meta <$>
                 foldl (fun vs r => apply_gradients r vs)
                   (trainable_weights {| model_batch_size := bs;
                      model_input_shape := input_shape;
                      model_layers := Generator_layers dim data_dim |} init) raws)
    by (apply list_elem_of_fmap; exists v0; split; [reflexivity|exact Hin]).
  rewrite Hmeta in Hm.
  assert (Hc : var_constraint v0 = None).
  { unfold var_meta in Hm.
    repeat (apply elem_of_cons in Hm as [Hm|Hm]); [..|inversion Hm];
      injection Hm as _ _ Hc; exact Hc. }
  split; [exact Hc|]. unfold update_variable. cbn. rewrite Hc. reflexivity.
Qed.

(** X23. For non-negative dimensions the freshly built networks hold
    [noise_dim*dim + 10*dim^2 + 7*dim + 4*dim*data_dim + data_dim] scalars
    (generator) and [4*data_dim*dim + 10*dim^2 + 8*dim + 1] scalars
    (critic). *)
Theorem count_params_formula (bs nd dd ld : Z) (g c : Model) (init : Q) :
  0 <= nd -> 0 <= dd -> 0 <= ld ->
  define_gan bs nd dd ld = Ok (g, c) ->
  Z.of_nat (count_params (trainable_weights g init))
    = nd * ld + 10 * ld * ld + 7 * ld + 4 * ld * dd + dd
  /\ Z.of_nat (count_params (trainable_weights c init))
    = 4 * dd * ld + 10 * ld * ld + 8 * ld + 1.
Proof.
  intros Hnd Hdd Hld. unfold define_gan.
  destruct (Generator_build_model bs nd ld dd) as [g'|e] eqn:Hg; [|discriminate].
  destruct (Critic_build_model bs dd ld) as [c'|e] eqn:Hc; [|discriminate].
  destruct (Input nd None); [|discriminate]. intros [= <- <-].
  apply Generator_build_model_layers in Hg. apply Critic_build_model_layers in Hc.
  subst g' c'. unfold count_params, trainable_weights. cbn.
  rewrite !length_replicate. split; nia.
Qed.

End BuilderFurther.

Lemma define_gan_pipeline_witness :
  exists g c,
    define_gan (K := Demo.keras) 4 2 3 8 = Ok (g, c)
    /\ stack (K := Demo.keras) (model_layers g) (model_input_shape g) = Ok 3
    /\ stack (K := Demo.keras) (model_layers c) (model_input_shape c) = Ok 1.
Proof.
  eexists _, _. split; [reflexivity|].
  pose proof (define_gan_pipeline (K := Demo.keras) 4 2 3 8 _ _ eq_refl) as H.
  split; [exact (proj1 (proj2 (proj2 H)))|exact (proj2 (proj2 (proj2 (proj2 (proj2 H)))))].
Defined.

Lemma generator_weights_unconstrained_witness :
  let g := {| model_batch_size := 4; model_input_shape := 2;
              model_layers := Generator_layers 8 3 |} in
  let raw := fun v : variable => (fun _ => 5%Q) <$> var_value v in
  let v0 := {| var_layer := 3; var_kind_of := bias; var_constraint := None;
               var_value := replicate 3 0%Q |} in
  var_value (update_variable raw v0) = [5%Q; 5%Q; 5%Q].
Proof.
  intros g raw v0.
  refine (eq_trans (proj2 (proj2 (generator_weights_unconstrained (K := Demo.keras)
            4 2 8 3 g 0%Q [] raw v0 _ _))) _).
  - reflexivity.
  - apply list_elem_of_In. do 7 right. left. reflexivity.
  - reflexivity.
Defined.

Lemma count_params_formula_witness :
  exists g c,
    define_gan (K := Demo.keras) 4 2 3 8 = Ok (g, c)
    /\ Z.of_nat (count_params (trainable_weights g 0%Q)) = 811
    /\ Z.of_nat (count_params (trainable_weights c 0%Q)) = 801.
Proof.
  eexists _, _. split; [reflexivity|].
  apply (count_params_formula (K := Demo.keras) 4 2 3 8 _ _ 0%Q);
    [discriminate|discriminate|discriminate|reflexivity].
Defined.

(** ** Checkpoint names: escapes and collisions *)

Lemma py_format_escape (s rest : string) (args : list string) :
  py_format (escape_braces s +:+ rest) args = prepend s (py_format rest args).
Proof.
  induction s as [|c s IH].
  - change (escape_braces "" +:+ rest) with rest.
    destruct (py_format rest args); reflexivity.
  - cbn [escape_braces].
    destruct (Ascii.eqb c "{"%char) eqn:Ho; cbn [orb].
    + change (String c (String c (escape_braces s)) +:+ rest)
        with (String c (String c (escape_braces s +:+ rest))).
      cbn [py_format]. rewrite Ho, IH.
      apply Ascii.eqb_eq in Ho. subst c.
      destruct (py_format rest args); reflexivity.
    + destruct (Ascii.eqb c "}"%char) eqn:Hc.
      * change (String c (String c (escape_braces s)) +:+ rest)
          with (String c (String c (escape_braces s +:+ rest))).
        cbn [py_format]. rewrite Ho, Hc, IH.
        apply Ascii.eqb_eq in Hc. subst c.
        destruct (py_format rest args); reflexivity.
      * change (String c (escape_braces s) +:+ rest)
          with (String c (escape_braces s +:+ rest)).
        cbn [py_format]. rewrite Ho, Hc, IH.
        destruct (py_format rest args); reflexivity.
Qed.

(** X12. Whatever the intended prefix is, passing it with every brace
    doubled makes the code build the name prescribed for the intended
    prefix: doubling is how a caller gets braces into a checkpoint name. *)
Theorem checkpoint_name_escaped (intended role : string) (epoch : Z) :
  checkpoint_name (escape_braces intended) role epoch
  = Ok (spec_checkpoint_name intended role epoch).
Proof.
  unfold checkpoint_name, spec_checkpoint_name.
  rewrite (py_format_brace_free "./cache/") by reflexivity.
  rewrite py_format_escape. reflexivity.
Qed.

Lemma list_ascii_of_string_app (s t : string) :
  Stdlib.Strings.String.list_ascii_of_string (s +:+ t) = Stdlib.Strings.String.list_ascii_of_string s ++ Stdlib.Strings.String.list_ascii_of_string t.
Proof.
  induction s as [|c s IH]; [reflexivity|].
  change (String c s +:+ t) with (String c (s +:+ t)). cbn. rewrite IH. reflexivity.
Qed.

Lemma append_inv_tail (s1 s2 t : string) : s1 +:+ t = s2 +:+ t -> s1 = s2.
Proof.
  intros Heq. apply (f_equal Stdlib.Strings.String.list_ascii_of_string) in Heq.
  rewrite !list_ascii_of_string_app in Heq. apply app_inv_tail in Heq.
  apply (f_equal Stdlib.Strings.String.string_of_list_ascii) in Heq.
  rewrite !Stdlib.Strings.String.string_of_list_ascii_of_string in Heq. exact Heq.
Qed.

(** X10. For a prefix without braces, the names the code builds for the
    two roles and for different epochs are all different: a checkpoint
    never overwrites the other role's file or the file of another epoch. *)
Theorem checkpoint_names_distinct (cache_prefix role1 role2 : string) (e1 e2 : Z) :
  brace_free cache_prefix = true ->
  role1 = "generator"%string \/ role1 = "critic"%string ->
  role2 = "generator"%string \/ role2 = "critic"%string ->
  checkpoint_name cache_prefix role1 e1 = checkpoint_name cache_prefix role2 e2 ->
  role1 = role2 /\ e1 = e2.
Proof.
  intros Hb H1 H2. rewrite !checkpoint_name_brace_free by exact Hb.
  intros [= Heq]. unfold spec_checkpoint_name in Heq.
  apply (inj (String.app _)), (inj (String.app _)), (inj (String.app _)) in Heq.
  destruct H1 as [-> | ->], H2 as [-> | ->].
  - split; [reflexivity|].
    apply (inj (String.app _)), (inj (String.app _)), append_inv_tail in Heq.
    unfold py_str in Heq. apply (inj pretty) in Heq. exact Heq.
  - cbv [String.append] in Heq. discriminate.
  - cbv [String.append] in Heq. discriminate.
  - split; [reflexivity|].
    apply (inj (String.app _)), (inj (String.app _)), append_inv_tail in Heq.
    unfold py_str in Heq. apply (inj pretty) in Heq. exact Heq.
Qed.

Lemma checkpoint_names_distinct_witness :
  checkpoint_name "run" "generator" 12 = checkpoint_name "run" "generator" 12
  /\ ("generator"%string = "generator"%string /\ 12 = 12).
Proof.
  split; [reflexivity|].
  apply (checkpoint_names_distinct "run" "generator" "generator" 12 12);
    [reflexivity|left; reflexivity|left; reflexivity|reflexivity].
Defined.

(** ** Loading *)

Section LoadFurther.
Context {RNG : NumpyRandom} {TF : TensorEngine}.
Implicit Types (w : World) (self : WGAN).

(** X20. [load] fails with an [AssertionError] exactly when the path is
    not an existing directory (a path that is missing or that names a
    weights file), and then it stops at the assertion: nothing in the world
    has changed, and neither has the controller. *)
Theorem load_guard self (p : string) w :
  ((load self p w).1 = Raise AssertionError <-> fs w !! p <> Some Directory)
  /\ (fs w !! p <> Some Directory ->
      load self p w = (Raise AssertionError, (self, w))).
Proof.
  split; [|apply load_not_directory].
  unfold load, os_path_isdir, load_weights.
  destruct (fs w !! p) as [[|f]|]; cbn.
  - split; [discriminate|]. intros H. exfalso. apply H. reflexivity.
  - split; [discriminate|reflexivity].
  - split; [discriminate|reflexivity].
Qed.

End LoadFurther.

(** ** The training loop: aborts, labels, schedule and files *)

Lemma length_py_range (n : Z) : length (py_range n) = Z.to_nat n.
Proof. unfold py_range. rewrite length_fmap, length_seq. reflexivity. Qed.

Section TrainFurther.
Context {RNG : NumpyRandom} {TF : TensorEngine}.
Implicit Types (w : World) (self : WGAN) (data : DataFrame Q).

(** X17. With a negative batch size the label vectors cannot be built:
    the run stops with a [ValueError] before anything else happens and
    leaves the world as it was. *)
Theorem train_negative_batch_size self data (train_arguments : string * Z * Z) w :
  batch_size self < 0 ->
  train self data train_arguments w = (Raise ValueError, w).
Proof.
  intros Hb. destruct train_arguments as [[cache_prefix epochs] sample_interval].
  unfold train, np_ones, bind, lift.
  destruct (Z.ltb_spec (batch_size self) 0); [reflexivity|lia].
Qed.

(** X18. On a data set without rows, a run with at least one epoch and at
    least one critic iteration stops at its first sampler call with a
    [ZeroDivisionError]: no training step is made, no file is written, and
    both generators are as they were. *)
Theorem train_empty_dataset self data (cache_prefix : string)
    (epochs sample_interval : Z) w :
  df_rows data = [] -> 1 <= n_critic self -> 0 < epochs -> 0 <= batch_size self ->
  train self data (cache_prefix, epochs, sample_interval) w
  = (Raise ZeroDivisionError,
     {| np_rng := np_rng w; tf := tf w; fs := fs w;
        log := SamplerCalled (batch_size self) 0 :: log w |}).
Proof.
  intros Hrows Hn He Hb. unfold train, np_ones.
  destruct (Z.ltb_spec (batch_size self) 0) as [?|_]; [lia|].
  rewrite (py_range_pos epochs He). unfold bind at 1 2 3. cbn [lift for_local].
  unfold epoch_body. rewrite (py_range_pos (n_critic self)) by lia. cbn [for_local].
  unfold critic_iteration, bind, with_rng, emit, modify. cbn.
  rewrite (get_data_batch_no_rows data (batch_size self) 0 (np_rng w) Hrows).
  reflexivity.
Qed.

(** One epoch with a zero sample interval never completes and keeps the
    file system. *)
Lemma emits_epoch_body_interval_zero self data (cache_prefix : string)
    (valid fake : ndarray Q) (epoch : Z) (d_loss : option (Q * Q)) :
  emits true (fun _ => True) (fun _ => False)
    (epoch_body self data cache_prefix 0 valid fake epoch d_loss).
Proof.
  unfold epoch_body.
  eapply emits_bind.
  { eapply emits_weaken; [|apply emits_critic_loop]. intros; exact I. }
  intros d_loss' _.
  eapply emits_bind; [apply emits_with_tf|]. intros noise _.
  eapply emits_bind; [apply emits_emit; exact I|]. intros _ _.
  eapply emits_bind; [apply emits_with_tf|]. intros g_loss _.
  eapply (emits_bind _ _ (fun _ => True)).
  { destruct d_loss'; [apply emits_ret; exact I|apply emits_raise]. }
  intros d _.
  eapply emits_bind; [apply emits_emit; exact I|]. intros _ _.
  eapply (emits_bind _ _ (fun _ => False)).
  { apply emits_lift. intros r. unfold py_mod. cbn. discriminate. }
  intros r [].
Qed.

(** X16. With [sample_interval = 0] and at least one epoch the run never
    returns normally (the test [epoch % sample_interval] raises at the
    latest in epoch 0), and it leaves the file system as it was: no
    directory is created and no checkpoint is written. *)
Theorem train_interval_zero self data (cache_prefix : string) (epochs : Z) w :
  0 < epochs ->
  (train self data (cache_prefix, epochs, 0) w).1 <> Ok tt
  /\ fs (train self data (cache_prefix, epochs, 0) w).2 = fs w.
Proof.
  intros He.
  assert (Hm : emits true (fun _ => True) (fun _ => False)
                 (train self data (cache_prefix, epochs, 0))).
  { unfold train.
    eapply emits_bind; [apply emits_lift; intros; exact I|]. intros ones _.
    eapply emits_bind; [apply emits_lift; intros; exact I|]. intros fake _.
    rewrite (py_range_pos epochs He). cbn [for_local].
    eapply (emits_bind _ _ (fun _ => False)); [|intros ? []].
    eapply emits_bind; [apply emits_epoch_body_interval_zero|]. intros ? []. }
  destruct (Hm w) as (Hfs & _ & Hq). split; [|exact (Hfs eq_refl)].
  intros Hok. exact (Hq tt Hok).
Qed.

(** The critic iteration under the label invariant. *)
Lemma labelled_critic_iteration self data (ones : ndarray Q) :
  emits true (labelled ones) (fun _ => True)
    (critic_iteration self data (np_neg ones) ones).
Proof.
  unfold critic_iteration.
  eapply emits_bind; [apply emits_emit; exact I|]. intros _ _.
  eapply (emits_bind _ _ (fun _ => True)); [apply emits_with_rng; intros; exact I|].
  intros batch_data _.
  eapply emits_bind; [apply emits_with_tf|]. intros noise _.
  eapply emits_bind; [apply emits_with_tf|]. intros gen_data _.
  eapply emits_bind; [apply emits_emit; reflexivity|]. intros _ _.
  eapply emits_bind; [apply emits_with_tf|]. intros d_loss_real _.
  eapply emits_bind; [apply emits_emit; reflexivity|]. intros _ _.
  eapply emits_bind; [apply emits_with_tf|]. intros d_loss_fake _.
  apply emits_ret. exact I.
Qed.

(** X15. The label vectors never change during a run: with
    [ones = np.ones((batch_size, 1))], every critic step on a real batch is
    trained against [-ones], every critic step on a generated batch against
    [ones], and every generator step against [-ones], in every epoch and
    also in a run that aborts. *)
Theorem train_labels self data (train_arguments : string * Z * Z) w (ones : ndarray Q) :
  np_ones (batch_size self) = Ok ones ->
  exists new,
    log (train self data train_arguments w).2 = new ++ log w
    /\ Forall (labelled ones) new.
Proof.
  intros Hones. destruct train_arguments as [[cache_prefix epochs] sample_interval].
  assert (Hm : emits false (labelled ones) (fun _ => True)
                 (train self data (cache_prefix, epochs, sample_interval))).
  { unfold train. rewrite Hones.
    eapply (emits_bind _ _ (fun o => o = ones));
      [apply emits_lift; intros a [= <-]; reflexivity|]. intros ? ->.
    eapply (emits_bind _ _ (fun o => o = ones));
      [apply emits_lift; intros a [= <-]; reflexivity|]. intros ? ->.
    eapply emits_bind; [|intros; apply emits_ret; exact I].
    apply emits_for_local. intros epoch d_loss. unfold epoch_body.
    eapply emits_bind.
    { apply emits_for_local. intros _ _.
      eapply emits_bind;
        [eapply emits_weaken; [|apply labelled_critic_iteration]; auto|].
      intros; apply emits_ret; exact I. }
    intros d_loss' _.
    eapply emits_bind; [apply emits_with_tf|]. intros noise _.
    eapply emits_bind; [apply emits_emit; reflexivity|]. intros _ _.
    eapply emits_bind; [apply emits_with_tf|]. intros g_loss _.
    eapply (emits_bind _ _ (fun _ => True)).
    { destruct d_loss'; [apply emits_ret; exact I|apply emits_raise]. }
    intros d _.
    eapply emits_bind; [apply emits_emit; exact I|]. intros _ _.
    eapply emits_bind; [apply emits_lift; intros; exact I|]. intros r _.
    eapply (emits_bind _ _ (fun _ => True)); [|intros; apply emits_ret; exact I].
    destruct (r =? 0); [|apply emits_ret; exact I].
    apply emits_checkpoint; intros; exact I. }
  destruct (Hm w) as (_ & Hnew & _). exact Hnew.
Qed.

End TrainFurther.

(** Split a successful [bind] in hypothesis [H] into its first step [Ha]
    and the rest, which stays in [H]. *)
Ltac peel H a w Ha := apply bind_Ok in H as (a & w & Ha & H).

Section TrainSchedule.
Context {RNG : NumpyRandom} {TF : TensorEngine}.
Implicit Types (w : World) (self : WGAN) (data : DataFrame Q).

Lemma count_kind_app (k : event_kind) (l1 l2 : list (event tensor)) :
  count_kind k (l1 ++ l2) = (count_kind k l1 + count_kind k l2)%nat.
Proof. induction l1 as [|ev l1 IH]; cbn; [reflexivity|]. rewrite IH. lia. Qed.

Lemma count_kind_none (k : event_kind) (l : list (event tensor)) :
  Forall (fun ev => kind_of ev <> k) l -> count_kind k l = 0%nat.
Proof.
  induction 1 as [|ev l Hev _ IH]; cbn; [reflexivity|].
  rewrite decide_False by exact Hev. exact IH.
Qed.

Lemma with_tf_log {X} (op : engine -> X * engine) w (r : result X) w' :
  with_tf op w = (r, w') -> log w' = log w.
Proof. unfold with_tf. destruct (op (tf w)). intros [= _ <-]. reflexivity. Qed.

Lemma emit_log (e : event tensor) w (r : result unit) w' :
  emit e w = (r, w') -> log w' = e :: log w.
Proof. intros [= _ <-]. reflexivity. Qed.

Lemma with_rng_log {X} (m : Py rng_state X) w (r : result X) w' :
  with_rng m w = (r, w') -> log w' = log w.
Proof. unfold with_rng. destruct (m (np_rng w)). intros [= _ <-]. reflexivity. Qed.

(** One critic iteration that completes logs one sampler call and two
    critic steps. *)
Lemma critic_iteration_counts self data (valid fake : ndarray Q) w (d : Q * Q) w'
    (k : event_kind) :
  critic_iteration self data valid fake w = (Ok d, w') ->
  count_kind k (log w')
  = (match k with SamplerCall => 1 | CriticStep => 2 | _ => 0 end
     + count_kind k (log w))%nat.
Proof.
  intros Hrun. unfold critic_iteration in Hrun.
  peel Hrun u1 w1 H1. peel Hrun batch_data w2 H2. peel Hrun noise w3 H3.
  peel Hrun gen_data w4 H4. peel Hrun u5 w5 H5. peel Hrun real w6 H6.
  peel Hrun u7 w7 H7. peel Hrun fk w8 H8. injection Hrun as _ <-.
  apply emit_log in H1, H5, H7. apply with_rng_log in H2.
  apply with_tf_log in H3, H4, H6, H8.
  rewrite H8, H7, H6, H5, H4, H3, H2, H1. destruct k; reflexivity.
Qed.

Lemma critic_loop_counts self data (valid fake : ndarray Q) (xs : list Z)
    (d d' : option (Q * Q)) w w' (k : event_kind) :
  for_local xs (fun _ _ => bind (critic_iteration self data valid fake)
                             (fun d => ret (Some d))) d w = (Ok d', w') ->
  count_kind k (log w')
  = (length xs * match k with SamplerCall => 1 | CriticStep => 2 | _ => 0 end
     + count_kind k (log w))%nat.
Proof.
  revert d w. induction xs as [|x xs IH]; intros d w Hrun.
  - injection Hrun as _ <-. reflexivity.
  - cbn [for_local] in Hrun. peel Hrun d1 w1 H1. peel H1 d2 w2 H2.
    injection H1 as _ <-.
    apply IH in Hrun. rewrite Hrun, (critic_iteration_counts _ _ _ _ _ _ _ k H2).
    cbn [length]. lia.
Qed.

Lemma epoch_body_counts self data (cache_prefix : string) (sample_interval : Z)
    (valid fake : ndarray Q) (epoch : Z) (d_loss d_loss' : option (Q * Q)) w w'
    (k : event_kind) :
  k <> FileSystem ->
  epoch_body self data cache_prefix sample_interval valid fake epoch d_loss w
    = (Ok d_loss', w') ->
  count_kind k (log w')
  = (epoch_count (Z.to_nat (n_critic self)) k + count_kind k (log w))%nat.
Proof.
  intros Hk Hrun. unfold epoch_body in Hrun.
  peel Hrun d1 w1 H1. peel Hrun noise w2 H2. peel Hrun u3 w3 H3.
  peel Hrun g_loss w4 H4. peel Hrun d w5 H5. peel Hrun u6 w6 H6.
  peel Hrun r w7 H7. peel Hrun u8 w8 H8. injection Hrun as _ <-.
  apply (critic_loop_counts _ _ _ _ _ _ _ _ _ k) in H1.
  rewrite length_py_range in H1.
  apply with_tf_log in H2, H4. apply emit_log in H3, H6.
  assert (L5 : log w5 = log w4) by (destruct d1; injection H5 as _ <-; reflexivity).
  assert (L7 : log w7 = log w6) by (injection H7 as _ <-; reflexivity).
  assert (L8 : count_kind k (log w8) = count_kind k (log w7)).
  { destruct (r =? 0); [|injection H8 as _ <-; reflexivity].
    destruct (emits_checkpoint (fun ev => kind_of ev = FileSystem) cache_prefix epoch
                ltac:(reflexivity) ltac:(reflexivity) w7) as (_ & (new & Hlog & Hnew) & _).
    rewrite H8 in Hlog. cbn in Hlog. rewrite Hlog, count_kind_app.
    rewrite count_kind_none; [reflexivity|].
    eapply Forall_impl; [exact Hnew|]. intros ev Hev. congruence. }
  rewrite L8, L7, H6. cbn [count_kind kind_of]. rewrite L5, H4, H3.
  cbn [count_kind kind_of]. rewrite H2, H1.
  destruct k; try congruence; repeat case_decide; try congruence;
    unfold epoch_count; lia.
Qed.

Lemma epochs_counts self data (cache_prefix : string) (sample_interval : Z)
    (valid fake : ndarray Q) (epochs : list Z) (d_loss d_loss' : option (Q * Q)) w w'
    (k : event_kind) :
  k <> FileSystem ->
  for_local epochs (epoch_body self data cache_prefix sample_interval valid fake)
    d_loss w = (Ok d_loss', w') ->
  count_kind k (log w')
  = (length epochs * epoch_count (Z.to_nat (n_critic self)) k
     + count_kind k (log w))%nat.
Proof.
  intros Hk. revert d_loss w.
  induction epochs as [|epoch epochs IH]; intros d_loss w Hrun.
  - injection Hrun as _ <-. reflexivity.
  - cbn [for_local] in Hrun. peel Hrun d1 w1 H1.
    apply IH in Hrun. apply (epoch_body_counts _ _ _ _ _ _ _ _ _ _ _ k Hk) in H1.
    rewrite Hrun, H1. cbn [length]. lia.
Qed.

(** X14. A run that completes follows the schedule exactly: it makes
    [epochs] generator steps and prints [epochs] progress lines, and for
    each of them [n_critic] sampler calls and [2 * n_critic] critic steps
    (one on the real batch, one on the generated batch). *)
Theorem train_schedule self data (cache_prefix : string) (epochs sample_interval : Z)
    w w' :
  train self data (cache_prefix, epochs, sample_interval) w = (Ok tt, w') ->
  let E := Z.to_nat epochs in
  let N := Z.to_nat (n_critic self) in
  count_kind SamplerCall (log w') = (E * N + count_kind SamplerCall (log w))%nat
  /\ count_kind CriticStep (log w') = (E * (2 * N) + count_kind CriticStep (log w))%nat
  /\ count_kind GeneratorStep (log w') = (E + count_kind GeneratorStep (log w))%nat
  /\ count_kind ProgressLine (log w') = (E + count_kind ProgressLine (log w))%nat.
Proof.
  intros Hrun E N. unfold train in Hrun.
  peel Hrun ones w1 H1. peel Hrun fake w2 H2. peel Hrun d w3 H3.
  injection Hrun as <-. injection H1 as _ <-. injection H2 as _ <-.
  pose proof (fun k Hk => epochs_counts _ _ _ _ _ _ _ _ _ _ _ k Hk H3) as Hc.
  rewrite length_py_range in Hc. fold E N in Hc.
  repeat split.
  - rewrite (Hc SamplerCall) by discriminate. reflexivity.
  - rewrite (Hc CriticStep) by discriminate. reflexivity.
  - rewrite (Hc GeneratorStep) by discriminate. cbn. lia.
  - rewrite (Hc ProgressLine) by discriminate. cbn. lia.
Qed.

(** X13. A run that completes with a prefix without braces writes, in this
    order and nothing else to the file system: at every epoch that
    [sample_interval] divides, the directory [./cache] if it does not exist
    yet, then the generator's and the critic's snapshot under their
    prescribed names; at the other epochs nothing. *)
Theorem train_checkpoint_schedule self data (cache_prefix : string)
    (epochs sample_interval : Z) w w' :
  brace_free cache_prefix = true ->
  train self data (cache_prefix, epochs, sample_interval) w = (Ok tt, w') ->
  checkpoint_events (log w') =
    reverse (expected_checkpoints cache_prefix sample_interval
               (bool_decide (is_Some (fs w !! "./cache"%string))) (py_range epochs))
    ++ checkpoint_events (log w).
Proof. apply train_checkpoints. Qed.

Lemma grows_quiet {X} P (Q : X -> Prop) (m : Py World X) :
  emits true P Q m -> grows m.
Proof.
  intros Hm w. destruct (Hm w) as (Hfs & _). rewrite (Hfs eq_refl). intros p Hp. exact Hp.
Qed.

Lemma grows_bind {X Y} (m : Py World X) (k : X -> Py World Y) :
  grows m -> (forall a, grows (k a)) -> grows (bind m k).
Proof.
  intros Hm Hk w. unfold bind. specialize (Hm w).
  destruct (m w) as [[a|e] w1]; cbn in *; [|exact Hm].
  intros p Hp. apply (Hk a w1), Hm, Hp.
Qed.

Lemma grows_for_local {X L} (xs : list X) (body : X -> L -> Py World L) (l : L) :
  (forall x l', grows (body x l')) -> grows (for_local xs body l).
Proof.
  intros Hb. revert l. induction xs as [|x xs IH]; intros l; cbn [for_local].
  - intros w p Hp. exact Hp.
  - apply grows_bind; [apply Hb|]. intros l'. apply IH.
Qed.

Lemma grows_checkpoint (cache_prefix : string) (epoch : Z) :
  grows (checkpoint cache_prefix epoch).
Proof.
  intros w p Hp. unfold checkpoint, os_mkdir, save_weights, path_exists.
  unfold bind, lift, ret, emit, modify.
  destruct (bool_decide (is_Some (fs w !! "./cache"%string)));
    destruct (checkpoint_name cache_prefix "generator" epoch) as [gf|e];
    cbn; try destruct (checkpoint_name cache_prefix "critic" epoch) as [cf|e'];
    cbn; repeat apply insert_keeps_Some; exact Hp.
Qed.

Lemma grows_same {X} (m : Py World X) :
  (forall w, fs (m w).2 = fs w) -> grows m.
Proof. intros Hm w p Hp. rewrite Hm. exact Hp. Qed.

Lemma grows_with_tf {X} (op : engine -> X * engine) : grows (with_tf op).
Proof.
  apply grows_same. intros w. unfold with_tf. destruct (op (tf w)). reflexivity.
Qed.

(** X19. A run never removes anything from the file system: every path
    that existed before the run exists after it, whether the run completes
    or aborts. *)
Theorem train_keeps_files self data (train_arguments : string * Z * Z) w (p : string) :
  is_Some (fs w !! p) ->
  is_Some (fs (train self data train_arguments w).2 !! p).
Proof.
  destruct train_arguments as [[cache_prefix epochs] sample_interval].
  revert p. change (fs_grows (fs w)
    (fs (train self data (cache_prefix, epochs, sample_interval) w).2)).
  revert w. change (grows (train self data (cache_prefix, epochs, sample_interval))).
  unfold train.
  apply grows_bind; [apply grows_same; reflexivity|]. intros ones.
  apply grows_bind; [apply grows_same; reflexivity|]. intros fake.
  apply grows_bind; [|intros; apply grows_same; reflexivity].
  apply grows_for_local. intros epoch d_loss. unfold epoch_body.
  apply grows_bind; [eapply grows_quiet, emits_critic_loop|]. intros d1.
  apply grows_bind; [apply grows_with_tf|]. intros noise.
  apply grows_bind; [apply grows_same; reflexivity|]. intros _.
  apply grows_bind; [apply grows_with_tf|]. intros g_loss.
  apply grows_bind; [destruct d1; apply grows_same; reflexivity|]. intros d.
  apply grows_bind; [apply grows_same; reflexivity|]. intros _.
  apply grows_bind; [apply grows_same; reflexivity|]. intros r.
  apply grows_bind; [|intros; apply grows_same; reflexivity].
  destruct (r =? 0); [apply grows_checkpoint|apply grows_same; reflexivity].
Qed.

End TrainSchedule.

(** ** The further properties on the end-to-end scenario *)

Lemma get_data_batch_window_witness :
  (get_data_batch (RNG := Demo.rng) Demo.dataset 4 2 7).1 =
    Ok {| shape := (4, 3);
          flat := [8; 0; 1; 9; 0; 1; 0; 0; 1; 1; 0; 1]%Q |}.
Proof.
  refine (eq_trans (get_data_batch_window (RNG := Demo.rng) Demo.dataset 4 2 7
                      demo_dataset_rectangular demo_dataset_NoDup _ _ _ _) _).
  - reflexivity.
  - reflexivity.
  - vm_compute. split; [discriminate|reflexivity].
  - vm_compute. discriminate.
  - reflexivity.
Defined.

Lemma get_data_batch_empty_witness :
  get_data_batch (RNG := Demo.rng) (A := Q) {| df_columns := 3; df_rows := [] |} 4 0 7
  = (Raise ZeroDivisionError, 7).
Proof. apply (get_data_batch_empty (RNG := Demo.rng)). reflexivity. Defined.

Lemma get_data_batch_nonpositive_batch_witness :
  (get_data_batch (RNG := Demo.rng) Demo.dataset 0 5 7).1 = Raise ValueError.
Proof.
  apply (get_data_batch_nonpositive_batch (RNG := Demo.rng)); [reflexivity|discriminate].
Defined.

Lemma get_data_batch_seed_rejected_witness :
  get_data_batch (RNG := Demo.rng) Demo.dataset 4 (-1) 7 = (Raise ValueError, 7).
Proof.
  apply (get_data_batch_seed_rejected (RNG := Demo.rng)); [reflexivity|].
  right; right. split; reflexivity.
Defined.


Lemma batch_labels_wrap_witness :
  (batch_labels (RNG := Demo.rng) Demo.dataset 4 2 7).1 = Ok [8; 9; 0; 1].
Proof.
  refine (eq_trans (batch_labels_wrap (RNG := Demo.rng) Demo.dataset 4 2 7 _ _ _ _) _).
  - reflexivity.
  - reflexivity.
  - vm_compute. split; [discriminate|reflexivity].
  - vm_compute. split; [reflexivity|discriminate].
  - reflexivity.
Defined.

Lemma get_data_batch_clobbers_generator_witness :
  (get_data_batch (RNG := Demo.rng) Demo.dataset 4 1 3).2 = 1.
Proof.
  refine (eq_trans (get_data_batch_clobbers_generator (RNG := Demo.rng)
                      Demo.dataset 4 1 3 _ _) _).
  - reflexivity.
  - vm_compute. split; [discriminate|reflexivity].
  - reflexivity.
Defined.

Lemma get_data_batch_rows_of_frame_witness :
  let x := {| shape := (4, 3);
              flat := [0; 0; 1; 1; 0; 1; 2; 0; 1; 3; 0; 1]%Q |} in
  (shape x).1 = 4
  /\ exists rows, flat x = concat (snd <$> rows)
                  /\ forall r, r ∈ rows -> r ∈ df_rows Demo.dataset.
Proof.
  intros x.
  apply (get_data_batch_rows_of_frame (RNG := Demo.rng) Demo.dataset 4 0 7 x).
  reflexivity.
Defined.

Lemma train_negative_batch_size_witness :
  train (RNG := Demo.rng) (TF := Demo.tensors)
    {| n_critic := 2; batch_size := -1; lr := 1 # 1000; noise_dim := 2;
       data_dim := 3; layers_dim := 8; generator := PyNone;
       critic := {| model_batch_size := -1; model_input_shape := 3;
                    model_layers := Critic_layers 8 |} |}
    Demo.dataset ("run"%string, 1, 1) Demo.world
  = (Raise ValueError, Demo.world).
Proof. apply (train_negative_batch_size (RNG := Demo.rng) (TF := Demo.tensors)). reflexivity. Defined.

Lemma train_empty_dataset_witness :
  (train (RNG := Demo.rng) (TF := Demo.tensors) (Demo.self 2)
     {| df_columns := 3; df_rows := [] |} ("run"%string, 1, 1) Demo.world).1
  = Raise ZeroDivisionError.
Proof.
  rewrite (train_empty_dataset (RNG := Demo.rng) (TF := Demo.tensors) (Demo.self 2)
             {| df_columns := 3; df_rows := [] |} "run" 1 1 Demo.world);
    [reflexivity|reflexivity|vm_compute; discriminate|reflexivity|vm_compute; discriminate].
Defined.

Lemma train_interval_zero_witness :
  fs (train (RNG := Demo.rng) (TF := Demo.tensors) (Demo.self 2) Demo.dataset
        ("run"%string, 2, 0) Demo.world).2 = fs Demo.world.
Proof.
  apply (train_interval_zero (RNG := Demo.rng) (TF := Demo.tensors)). reflexivity.
Defined.

Lemma train_labels_witness :
  exists new,
    log (train (RNG := Demo.rng) (TF := Demo.tensors) (Demo.self 2) Demo.dataset
           ("run"%string, 1, 1) Demo.world).2 = new ++ log Demo.world
    /\ Forall (labelled {| shape := (4, 1); flat := [1; 1; 1; 1]%Q |}) new.
Proof.
  apply (train_labels (RNG := Demo.rng) (TF := Demo.tensors)). reflexivity.
Defined.

Lemma train_schedule_witness :
  count_kind CriticStep
    (log (train (RNG := Demo.rng) (TF := Demo.tensors) (Demo.self 2) Demo.dataset
            ("run"%string, 3, 2) Demo.world).2) = 12%nat.
Proof.
  refine (eq_trans (proj1 (proj2 (train_schedule (RNG := Demo.rng) (TF := Demo.tensors)
            (Demo.self 2) Demo.dataset "run" 3 2 Demo.world _ _))) _).
  - vm_compute. reflexivity.
  - reflexivity.
Defined.

Lemma train_checkpoint_schedule_witness :
  checkpoint_events
    (log (train (RNG := Demo.rng) (TF := Demo.tensors) (Demo.self 2) Demo.dataset
            ("run"%string, 3, 2) Demo.world).2)
  = [ Saved "critic" "./cache/run_critic_model_weights_step_2.h5";
      Saved "generator" "./cache/run_generator_model_weights_step_2.h5";
      Saved "critic" "./cache/run_critic_model_weights_step_0.h5";
      Saved "generator" "./cache/run_generator_model_weights_step_0.h5";
      Mkdir "./cache" ].
Proof.
  refine (eq_trans (train_checkpoint_schedule (RNG := Demo.rng) (TF := Demo.tensors)
            (Demo.self 2) Demo.dataset "run" 3 2 Demo.world _ _ _) _).
  - reflexivity.
  - vm_compute. reflexivity.
  - vm_compute. reflexivity.
Defined.

Lemma train_keeps_files_witness :
  is_Some (fs (train (RNG := Demo.rng) (TF := Demo.tensors) (Demo.self 2) Demo.dataset
                 ("run"%string, 1, 1) Demo.cache_world).2 !! "./cache"%string).
Proof.
  apply (train_keeps_files (RNG := Demo.rng) (TF := Demo.tensors)).
  eexists. vm_compute. reflexivity.
Defined.

Lemma load_guard_witness :
  load (RNG := Demo.rng) (TF := Demo.tensors) (Demo.self 2) "./missing" Demo.cache_world
  = (Raise AssertionError, (Demo.self 2, Demo.cache_world)).
Proof.
  apply (proj2 (load_guard (RNG := Demo.rng) (TF := Demo.tensors)
                  (Demo.self 2) "./missing" Demo.cache_world)).
  vm_compute. discriminate.
Defined.
